(** * ProyectoMovil, [App.tsx]: capture, upload, display and speak

    A shallow embedding of the single screen of the application: the state
    kept by [useState], the three asynchronous functions
    [speakPredictions], [sendImageToServer] and [takePhoto], and the
    element tree the component returns.

    - [JS]: the fragment of the JavaScript runtime the code relies on:
      values as [JSON.parse] produces them, property reads, coercions,
      [Number.prototype.toFixed], [Array.prototype.map] and [join].
      Numbers are binary64; strings are sequences of bytes (UTF-8).
    - [Async]: the body of an asynchronous function as a finite tree of
      synchronous actions and awaited calls, with [try], [catch] and
      [finally].
    - [App]: the component, written per render as the source is: the
      functions are created in a render and close over its state.
    - [Run]: one flow run to its end against the outcomes the environment
      gives to the awaited calls, with the state at every moment.
    - [EventLoop]: several flows suspended at their awaits and resumed in
      any order, with presses and edits in between.
    - [Typed]: the values that have the shape the interfaces declare, and
      the sentence and the list entry of the specification.
    - [Statements], [Sample]: what the properties speak of, and the inputs
      of the concrete runs. *)

From Stdlib Require Import ZArith String Ascii List Bool Lia.
From Stdlib Require Import Floats.SpecFloat.
From Stdlib Require Import Numbers.DecimalString.
Import ListNotations.

Set Warnings "-register-all".
Local Open Scope list_scope.
Local Open Scope string_scope.

(* ================================================================== *)
(** * The JavaScript runtime fragment *)
(* ================================================================== *)

Module JS.

(** ** Numbers: IEEE 754 binary64 *)

Definition prec : Z := 53.
Definition emax : Z := 1024.

Definition number : Type := spec_float.

Definition NaN : number := S754_nan.
Definition of_Z (z : Z) : number := binary_normalize prec emax z 0 false.
Definition mul : number -> number -> number := SFmul prec emax.
Definition div : number -> number -> number := SFdiv prec emax.
Definition ltb : number -> number -> bool := SFltb.

(** The literal [p/q] for integers [p] and [q] that binary64 holds exactly:
    division rounds to nearest, so this is the double a decimal literal
    such as [1.2] or [0.9321] denotes. *)
Definition ratio (p q : Z) : number := div (of_Z p) (of_Z q).

(** ** Errors and completions *)

Inductive Error : Type :=
| TypeError
| SyntaxError
| NetworkError
| OtherError (description : string).

Inductive Completion (A : Type) : Type :=
| Normal (a : A)
| Abrupt (e : Error).
Arguments Normal {A} a.
Arguments Abrupt {A} e.

Definition cbind {A B} (c : Completion A) (k : A -> Completion B) : Completion B :=
  match c with
  | Normal a => k a
  | Abrupt e => Abrupt e
  end.

Declare Scope completion_scope.
Delimit Scope completion_scope with completion.
Notation "x <- c ;; k" := (cbind c (fun x => k))
  (at level 61, c at next level, right associativity) : completion_scope.

(** ** Values

    What [response.json()] can resolve with, and [undefined]. An object is
    the table of its own properties. *)

Inductive Value : Type :=
| VUndefined
| VNull
| VBool (b : bool)
| VNumber (x : number)
| VString (s : string)
| VArray (elems : list Value)
| VObject (props : list (string * Value)).

Fixpoint own_property (p : string) (props : list (string * Value)) : option Value :=
  match props with
  | [] => None
  | (k, v) :: rest => if String.eqb k p then Some v else own_property p rest
  end.

(** [v.p] for a property name [p] that no built-in prototype defines, as
    are the three the code reads: [predictions], [class_name] and
    [probability]. Reading a property of [null] or [undefined] throws; a
    primitive or an array has no such property. *)
Definition Get (v : Value) (p : string) : Completion Value :=
  match v with
  | VUndefined | VNull => Abrupt TypeError
  | VObject props =>
      Normal (match own_property p props with Some x => x | None => VUndefined end)
  | VBool _ | VNumber _ | VString _ | VArray _ => Normal VUndefined
  end.

(** The two conversions between numbers and text belong to the engine. *)
Class Runtime : Type := {
  NumberToString : number -> string;
  StringToNumber : string -> number
}.

Section Coercions.
Context {rt : Runtime}.

Local Open Scope completion_scope.

(** [ToString]. An array goes through [Array.prototype.join] with [","],
    where [null] and [undefined] elements give the empty string; a plain
    object gives ["[object Object]"] unless an own (hence not callable)
    [toString] property hides the inherited method, in which case no
    primitive is found and a [TypeError] is thrown. *)
Fixpoint ToString (v : Value) : Completion string :=
  match v with
  | VUndefined => Normal "undefined"
  | VNull => Normal "null"
  | VBool true => Normal "true"
  | VBool false => Normal "false"
  | VNumber x => Normal (NumberToString x)
  | VString s => Normal s
  | VArray elems =>
      (fix join_elems (l : list Value) : Completion string :=
         match l with
         | [] => Normal ""
         | e :: rest =>
             s <- match e with
                  | VUndefined | VNull => Normal ""
                  | _ => ToString e
                  end ;;
             match rest with
             | [] => Normal s
             | _ :: _ => r <- join_elems rest ;; Normal (s ++ "," ++ r)
             end
         end) elems
  | VObject props =>
      match own_property "toString" props with
      | Some _ => Abrupt TypeError
      | None => Normal "[object Object]"
      end
  end.

(** [ToNumber]. For an array or an object the primitive found with hint
    number is the same string as with hint string, since the inherited
    [valueOf] returns the object itself. *)
Definition ToNumber (v : Value) : Completion number :=
  match v with
  | VUndefined => Normal NaN
  | VNull => Normal (S754_zero false)
  | VBool true => Normal (of_Z 1)
  | VBool false => Normal (S754_zero false)
  | VNumber x => Normal x
  | VString s => Normal (StringToNumber s)
  | VArray _ | VObject _ => s <- ToString v ;; Normal (StringToNumber s)
  end.

(** ** [Number.prototype.toFixed] *)

Definition digits (n : Z) : string := NilEmpty.string_of_uint (N.to_uint (Z.to_N n)).

Fixpoint zeros (k : nat) : string :=
  match k with
  | O => ""
  | S k' => String "0" (zeros k')
  end.

(** The integer [n] for which [n / 10^f] is closest to [m * 2^e], the
    larger one when two are equally close. *)
Definition nearest_scaled (m e : Z) (f : nat) : Z :=
  let scaled := (m * 10 ^ Z.of_nat f)%Z in
  if (0 <=? e)%Z then (scaled * 2 ^ e)%Z
  else let d := (2 ^ (- e))%Z in ((2 * scaled + d) / (2 * d))%Z.

(** The digits of [n] with a point before the last [f] of them, padded
    with zeros on the left up to [f + 1] digits. *)
Definition place_point (n : Z) (f : nat) : string :=
  let m := digits n in
  match f with
  | O => m
  | S _ =>
      let m := if Nat.leb (String.length m) f
               then zeros (f + 1 - String.length m) ++ m else m in
      let k := String.length m in
      substring 0 (k - f) m ++ "." ++ substring (k - f) f m
  end.

Definition at_least_1e21 (m e : Z) : bool :=
  if (0 <=? e)%Z then (10 ^ 21 <=? m * 2 ^ e)%Z
  else (10 ^ 21 * 2 ^ (- e) <=? m)%Z.

Definition toFixed (x : number) (fractionDigits : nat) : string :=
  match x with
  | S754_nan => "NaN"
  | S754_infinity false => "Infinity"
  | S754_infinity true => "-Infinity"
  | S754_zero _ => place_point 0 fractionDigits
  | S754_finite s m e =>
      (if s then "-" else "")
      ++ (if at_least_1e21 (Zpos m) e then NumberToString (S754_finite false m e)
          else place_point (nearest_scaled (Zpos m) e fractionDigits) fractionDigits)
  end.

(** ** Arrays *)

Fixpoint map_elems {B} (f : Value -> Completion B) (l : list Value) : Completion (list B) :=
  match l with
  | [] => Normal []
  | e :: rest => b <- f e ;; bs <- map_elems f rest ;; Normal (b :: bs)
  end.

(** [v.map(f)]: reading [map] of [null] or [undefined] throws; on anything
    but an array the property is not a function and the call throws. *)
Definition Array_map {B} (v : Value) (f : Value -> Completion B) : Completion (list B) :=
  match v with
  | VArray elems => map_elems f elems
  | _ => Abrupt TypeError
  end.

(** [strings.join(sep)] on an array of strings. *)
Definition Array_join (sep : string) (strings : list string) : string :=
  String.concat sep strings.

(** [v.length > 0]. *)
Definition length_gt_0 (v : Value) : Completion bool :=
  match v with
  | VUndefined | VNull => Abrupt TypeError
  | VArray elems => Normal (negb (Nat.eqb (List.length elems) 0))
  | VString s => Normal (negb (String.eqb s ""))
  | VBool _ | VNumber _ => Normal false
  | VObject props =>
      match own_property "length" props with
      | None => Normal false
      | Some len => x <- ToNumber len ;; Normal (ltb (S754_zero false) x)
      end
  end.

End Coercions.

End JS.

Export JS.

(* ================================================================== *)
(** * Asynchronous functions *)
(* ================================================================== *)

Module Async.

Inductive Settled (X : Type) : Type :=
| Fulfilled (x : X)
| Rejected (e : Error).
Arguments Fulfilled {X} x.
Arguments Rejected {X} e.

Section Prog.
Variable Action : Type.
Variable Call : Type -> Type.

(** The body of an [async] function: it returns, throws, performs a
    synchronous action and goes on, or starts a call, is suspended at the
    [await] and goes on with what the call settled to. *)
Inductive Prog (A : Type) : Type :=
| Ret (a : A)
| Throw (e : Error)
| Do (a : Action) (k : Prog A)
| Await (X : Type) (c : Call X) (k : Settled X -> Prog A).

End Prog.

Arguments Ret {Action Call A} a.
Arguments Throw {Action Call A} e.
Arguments Do {Action Call A} a k.
Arguments Await {Action Call A X} c k.

Section Combinators.
Context {Action : Type} {Call : Type -> Type}.
Local Abbreviation Prog := (Prog Action Call).

Fixpoint bind {A B} (p : Prog A) (f : A -> Prog B) : Prog B :=
  match p with
  | Ret a => f a
  | Throw e => Throw e
  | Do a k => Do a (bind k f)
  | Await c k => Await c (fun o => bind (k o) f)
  end.

(** [try { p } catch (error) { handler error }] *)
Fixpoint try_catch {A} (p : Prog A) (handler : Error -> Prog A) : Prog A :=
  match p with
  | Ret a => Ret a
  | Throw e => handler e
  | Do a k => Do a (try_catch k handler)
  | Await c k => Await c (fun o => try_catch (k o) handler)
  end.

(** [try { p } finally { fin }]: [fin] runs on every way out of [p], and
    the completion of [p] stands unless [fin] itself throws. *)
Fixpoint try_finally {A} (p : Prog A) (fin : Prog unit) : Prog A :=
  match p with
  | Ret a => bind fin (fun _ => Ret a)
  | Throw e => bind fin (fun _ => Throw e)
  | Do a k => Do a (try_finally k fin)
  | Await c k => Await c (fun o => try_finally (k o) fin)
  end.

(** [await c] *)
Definition await {X} (c : Call X) : Prog X :=
  Await c (fun o => match o with
                    | Fulfilled x => Ret x
                    | Rejected e => Throw e
                    end).

(** A synchronous call, e.g. of a state setter. *)
Definition call (a : Action) : Prog unit := Do a (Ret tt).

(** A synchronous expression that may throw. *)
Definition eval {A} (c : Completion A) : Prog A :=
  match c with
  | Normal a => Ret a
  | Abrupt e => Throw e
  end.

End Combinators.

Declare Scope prog_scope.
Delimit Scope prog_scope with prog.
Notation "x <- p ;; k" := (bind p (fun x => k))
  (at level 61, p at next level, right associativity) : prog_scope.
Notation "p ;; k" := (bind p (fun _ => k))
  (at level 61, right associativity) : prog_scope.

End Async.

Export Async.

(* ================================================================== *)
(** * The component *)
(* ================================================================== *)

Module App.

(** ** Types of the libraries the component imports *)

(** expo-image-picker *)
Inductive PermissionStatus : Type := granted | denied | undetermined.

Record PermissionResponse : Type := { status : PermissionStatus }.

Inductive MediaTypeOptions : Type := All | Videos | Images.

Record ImagePickerOptions : Type := {
  mediaTypes : MediaTypeOptions;
  allowsEditing : bool;
  quality : number
}.

Record ImagePickerAsset : Type := { uri : string }.

Record ImagePickerResult : Type := {
  canceled : bool;
  assets : option (list ImagePickerAsset)
}.

(** [result.assets[0].uri] *)
Definition first_asset_uri (result : ImagePickerResult) : Completion string :=
  match assets result with
  | Some (asset :: _) => Normal (uri asset)
  | Some [] | None => Abrupt TypeError
  end.

(** fetch *)
Record FileDescriptor : Type := {
  file_uri : string;
  file_type : string;
  file_name : string
}.

Definition FormData : Type := list (string * FileDescriptor).

Definition FormData_new : FormData := [].

Definition FormData_append (fd : FormData) (name : string) (value : FileDescriptor) : FormData :=
  (fd ++ [(name, value)])%list.

Record RequestInit : Type := {
  method : string;
  body : FormData;
  headers : list (string * string)
}.

Record Response : Type := { response_status : nat }.

Definition response_ok (r : Response) : bool :=
  Nat.leb 200 (response_status r) && Nat.leb (response_status r) 299.

(** expo-speech *)
Record SpeechOptions : Type := {
  language : string;
  pitch : number;
  rate : number
}.

(** ** The interface of the source *)

Record Prediction : Type := {
  class_id : string;
  class_name : string;
  probability : number
}.

(** ** State *)

Record State : Type := {
  imageUri : option string;
  predictions : Value;
  isLoading : bool;
  serverIP : string
}.

(** The arguments of the four [useState] calls. *)
Definition initial_state : State :=
  {| imageUri := None;
     predictions := VArray [];
     isLoading := false;
     serverIP := "54.164.207.27" |}.

(** ** What the functions do synchronously, and what they await *)

Inductive Action : Type :=
| setImageUri (u : string)
| setPredictions (v : Value)
| setIsLoading (b : bool)
| setServerIP (ip : string)
| alert (message : string)
| console_error (message : string) (error : Error).

Inductive Call : Type -> Type :=
| requestCameraPermissionsAsync : Call PermissionResponse
| launchCameraAsync (options : ImagePickerOptions) : Call ImagePickerResult
| fetch (url : string) (init : RequestInit) : Call Response
| Response_json (response : Response) : Call Value
| Speech_speak (text : string) (options : SpeechOptions) : Call unit.

Definition Prog : Type -> Type := Async.Prog Action Call.

(** ** The element tree *)

Inductive Element : Type :=
| View (style : string) (children : list Element)
| Keyed (key : nat) (element : Element)
| Text (style : string) (children : list Element)
| TextInput (style value : string) (onChangeText : string -> Prog unit)
    (placeholder keyboardType : string)
| TouchableOpacity (style : string) (onPress : Prog unit) (children : list Element)
| MaterialCommunityIcons (name : string) (size : Z) (color : string)
| Image (source_uri : string) (style : string)
| ActivityIndicator (size color : string)
| ScrollView (style : string) (children : list Element)
| Literal (text : string)
| Embedded (v : Value).

(** [items.map((item, index) => f item index)] on an array. *)
Fixpoint map_indexed {B} (f : Value -> nat -> Completion B) (index : nat) (l : list Value)
  : Completion (list B) :=
  match l with
  | [] => Normal []
  | e :: rest =>
      (b <- f e index ;; bs <- map_indexed f (S index) rest ;; Normal (b :: bs))%completion
  end.

Section Component.
Context {rt : Runtime}.

Local Open Scope prog_scope.

(** The callback of [predictions.map] in [speakPredictions]. *)
Definition phrase (pred : Value) : Completion string :=
  (name <- Get pred "class_name" ;;
   name <- ToString name ;;
   p <- Get pred "probability" ;;
   p <- ToNumber p ;;
   Normal (name ++ " con " ++ toFixed (mul p (of_Z 100)) 2 ++ "% de probabilidad"))%completion.

Definition textToSpeak (predictions : Value) : Completion string :=
  (phrases <- Array_map predictions phrase ;;
   Normal (Array_join ". " phrases))%completion.

Definition speech_options : SpeechOptions :=
  {| language := "es"; pitch := of_Z 1; rate := ratio 12 10 |}.

Definition speakPredictions (predictions : Value) : Prog unit :=
  text <- eval (textToSpeak predictions) ;;
  try_catch
    (await (Speech_speak text speech_options))
    (fun error => call (console_error "Error al reproducir audio:" error)).

(** The values [useState] returns in one render; the functions below are
    created in that render and close over them. *)
Variable render : State.

Definition upload_form (uri : string) : FormData :=
  FormData_append FormData_new "file"
    {| file_uri := uri; file_type := "image/jpeg"; file_name := "photo.jpg" |}.

Definition sendImageToServer (uri : string) : Prog unit :=
  try_finally
    (try_catch
       (call (setIsLoading true) ;;
        let formData := upload_form uri in
        response <- await (fetch ("http://" ++ serverIP render ++ ":8720/predict/")
                             {| method := "POST";
                                body := formData;
                                headers := [("Content-Type", "multipart/form-data")] |}) ;;
        data <- await (Response_json response) ;;
        stored <- eval (Get data "predictions") ;;
        call (setPredictions stored) ;;
        spoken <- eval (Get data "predictions") ;;
        speakPredictions spoken)
       (fun error =>
          call (console_error "Error al enviar la imagen:" error) ;;
          call (alert "Error al procesar la imagen")))
    (call (setIsLoading false)).

Definition camera_options : ImagePickerOptions :=
  {| mediaTypes := Images; allowsEditing := false; quality := of_Z 1 |}.

Definition takePhoto : Prog unit :=
  response <- await requestCameraPermissionsAsync ;;
  match status response with
  | granted =>
      result <- await (launchCameraAsync camera_options) ;;
      if negb (canceled result) then
        shown <- eval (first_asset_uri result) ;;
        call (setImageUri shown) ;;
        sent <- eval (first_asset_uri result) ;;
        sendImageToServer sent
      else Ret tt
  | denied | undetermined =>
      call (alert "Se requieren permisos para usar la cámara.")
  end.

(** One item of the list of results. *)
Definition prediction_item (prediction : Value) (index : nat) : Completion Element :=
  (name <- Get prediction "class_name" ;;
   p <- Get prediction "probability" ;;
   p <- ToNumber p ;;
   Normal
     (Keyed index
        (View "predictionItem"
           [View "predictionContent"
              [Text "predictionName" [Embedded name];
               Text "predictionProb"
                 [Embedded (VString (toFixed (mul p (of_Z 100)) 2)); Literal "%"]]])))%completion.

(** [predictions.length > 0 && (...)] *)
Definition results : Completion Element :=
  (nonempty <- length_gt_0 (predictions render) ;;
   if nonempty : bool then
     items <- match predictions render with
              | VArray elems => map_indexed prediction_item 0 elems
              | _ => Abrupt TypeError
              end ;;
     Normal
       (View "predictionsCard"
          [Text "predictionsTitle" [Literal "Resultados del Análisis"];
           ScrollView "predictionsContainer" items])
   else Normal (Embedded (VBool false)))%completion.

(** The screen around the loading indicator or the results. *)
Definition screen (status_area : Element) : Element :=
  View "container"
    [Text "title" [Literal "Analizar imagen"];
     View "ipInputContainer"
       [Text "ipLabel" [Literal "Dirección IP del servidor:"];
        TextInput "ipInput" (serverIP render) (fun text => call (setServerIP text))
          "Ingrese la IP del servidor" "numeric"];
     TouchableOpacity "button" takePhoto
       [MaterialCommunityIcons "camera" 24 "white";
        Text "buttonText" [Literal "Tomar Foto"]];
     match imageUri render with
     | None => Embedded VNull
     | Some "" => Embedded (VString "")
     | Some u => View "imageCard" [Image u "image"]
     end;
     status_area].

(** What the component returns. *)
Definition App : Completion Element :=
  (status_area <-
     (if isLoading render then
        Normal
          (View "loadingContainer"
             [ActivityIndicator "large" "#6C63FF";
              Text "loadingText" [Literal "Analizando imagen..."]])
      else results) ;;
   Normal (screen status_area))%completion.

End Component.

End App.

Export App.

(* ================================================================== *)
(** * Running one flow *)
(* ================================================================== *)

Module Run.

(** What each awaited call settles to. *)
Record Env : Type := { settle : forall X, Call X -> Settled X }.

(** The environment in which the five calls settle to the given outcomes. *)
Definition environment
    (permission : Settled PermissionResponse) (capture : Settled ImagePickerResult)
    (reply : Settled Response) (parsed : Settled Value) (speech : Settled unit) : Env :=
  {| settle := fun X c =>
       match c in Call X return Settled X with
       | requestCameraPermissionsAsync => permission
       | launchCameraAsync _ => capture
       | fetch _ _ => reply
       | Response_json _ => parsed
       | Speech_speak _ _ => speech
       end |}.

Inductive Event : Type :=
| Did (a : Action)
| Started (X : Type) (c : Call X)
| Finished (X : Type) (c : Call X) (o : Settled X).
Arguments Started {X} c.
Arguments Finished {X} c o.

(** An event and the state right after it. *)
Record Point : Type := { event : Event; after : State }.

Definition update (a : Action) (st : State) : State :=
  match a with
  | setImageUri u =>
      {| imageUri := Some u; predictions := predictions st;
         isLoading := isLoading st; serverIP := serverIP st |}
  | setPredictions v =>
      {| imageUri := imageUri st; predictions := v;
         isLoading := isLoading st; serverIP := serverIP st |}
  | setIsLoading b =>
      {| imageUri := imageUri st; predictions := predictions st;
         isLoading := b; serverIP := serverIP st |}
  | setServerIP ip =>
      {| imageUri := imageUri st; predictions := predictions st;
         isLoading := isLoading st; serverIP := ip |}
  | alert _ | console_error _ _ => st
  end.

Record Result (A : Type) : Type := {
  trace : list Point;
  final : State;
  completion : Completion A
}.
Arguments trace {A} r.
Arguments final {A} r.
Arguments completion {A} r.

Fixpoint run {A} (env : Env) (p : Prog A) (st : State) : Result A :=
  match p with
  | Ret a => {| trace := []; final := st; completion := Normal a |}
  | Throw e => {| trace := []; final := st; completion := Abrupt e |}
  | Do a k =>
      let st' := update a st in
      let r := run env k st' in
      {| trace := {| event := Did a; after := st' |} :: trace r;
         final := final r;
         completion := completion r |}
  | Await c k =>
      let o := settle env _ c in
      let r := run env (k o) st in
      {| trace := {| event := Started c; after := st |}
                  :: {| event := Finished c o; after := st |} :: trace r;
         final := final r;
         completion := completion r |}
  end.

Definition events {A} (r : Result A) : list Event := map event (trace r).

(** ** What can be observed in a trace *)

Definition request_of (e : Event) : option (string * RequestInit) :=
  match e with
  | Started c =>
      match c with
      | fetch url init => Some (url, init)
      | _ => None
      end
  | _ => None
  end.

Definition alert_of (e : Event) : option string :=
  match e with
  | Did (alert message) => Some message
  | _ => None
  end.

Definition utterance_of (e : Event) : option (string * SpeechOptions) :=
  match e with
  | Started c =>
      match c with
      | Speech_speak text options => Some (text, options)
      | _ => None
      end
  | _ => None
  end.

Definition stored_of (e : Event) : option Value :=
  match e with
  | Did (setPredictions v) => Some v
  | _ => None
  end.

Fixpoint collect {B} (f : Event -> option B) (es : list Event) : list B :=
  match es with
  | [] => []
  | e :: rest =>
      match f e with
      | Some b => b :: collect f rest
      | None => collect f rest
      end
  end.

Definition requests : list Event -> list (string * RequestInit) := collect request_of.
Definition alerts : list Event -> list string := collect alert_of.
Definition utterances : list Event -> list (string * SpeechOptions) := collect utterance_of.
Definition stores : list Event -> list Value := collect stored_of.

(** ** The points of a flow

    A flow is looked at before its first event, between any two events and
    after its last: what has happened, the state then, what is to come. *)

Record Moment : Type := { past : list Event; now : State; ahead : list Event }.

Fixpoint moments_from (before : list Event) (st : State) (tr : list Point) : list Moment :=
  {| past := before; now := st; ahead := map event tr |}
  :: match tr with
     | [] => []
     | pt :: rest => moments_from (before ++ [event pt])%list (after pt) rest
     end.

Definition moments {A} (st : State) (r : Result A) : list Moment :=
  moments_from [] st (trace r).

(** The request is in flight from the call of [fetch] until the fetch
    rejects or the body of the response has been read. *)
Definition in_flight_after (b : bool) (e : Event) : bool :=
  match e with
  | Did _ => b
  | Started c =>
      match c with
      | fetch _ _ => true
      | _ => b
      end
  | Finished c o =>
      match c in Call X return Settled X -> bool with
      | fetch _ _ => fun o => match o with Rejected _ => false | Fulfilled _ => b end
      | Response_json _ => fun _ => false
      | _ => fun _ => b
      end o
  end.

Definition in_flight (es : list Event) : bool := fold_left in_flight_after es false.

(** The body of a response has been parsed. *)
Definition parsed_body (e : Event) : option Value :=
  match e with
  | Finished c o =>
      match c in Call X return Settled X -> option Value with
      | Response_json _ => fun o => match o with Fulfilled v => Some v | Rejected _ => None end
      | _ => fun _ => None
      end o
  | _ => None
  end.

Definition bodies : list Event -> list Value := collect parsed_body.

Definition logged_of (e : Event) : option (string * Error) :=
  match e with
  | Did (console_error message error) => Some (message, error)
  | _ => None
  end.

Definition logged : list Event -> list (string * Error) := collect logged_of.

(** The upload has executed its first statement, [setIsLoading(true)]. *)
Definition begins_upload (e : Event) : bool :=
  match e with
  | Did (setIsLoading true) => true
  | _ => false
  end.

Definition began_upload (es : list Event) : bool := existsb begins_upload es.

(** The request that is being sent at a moment, if one is. *)
Definition next_request (m : Moment) : option (string * RequestInit) :=
  match ahead m with
  | e :: _ => request_of e
  | [] => None
  end.

End Run.

Export Run.

(* ================================================================== *)
(** * Several flows on one event loop *)
(* ================================================================== *)

Module EventLoop.

(** A flow suspended at an [await]: the call it waits for and what it does
    once the call has settled. *)
Record Suspended : Type := {
  awaited_type : Type;
  awaited : Call awaited_type;
  resume : Settled awaited_type -> Prog unit
}.

(** What a call settles to, whichever call it is. *)
Inductive Outcome : Type :=
| Permission (o : Settled PermissionResponse)
| Capture (o : Settled ImagePickerResult)
| Reply (o : Settled Response)
| Body (o : Settled Value)
| Spoken (o : Settled unit).

Definition outcome_for {X} (c : Call X) (o : Outcome) : option (Settled X) :=
  match c in Call X return option (Settled X) with
  | requestCameraPermissionsAsync => match o with Permission s => Some s | _ => None end
  | launchCameraAsync _ => match o with Capture s => Some s | _ => None end
  | fetch _ _ => match o with Reply s => Some s | _ => None end
  | Response_json _ => match o with Body s => Some s | _ => None end
  | Speech_speak _ _ => match o with Spoken s => Some s | _ => None end
  end.

(** The state, the flows started so far, each suspended or finished, and
    everything that has happened. *)
Record Session : Type := {
  store : State;
  flows : list (option Suspended);
  log : list Event
}.

Definition opening (st : State) : Session := {| store := st; flows := []; log := [] |}.

(** A flow runs without interruption up to its next [await]. *)
Fixpoint advance (p : Prog unit) (st : State) (happened : list Event)
  : State * list Event * option Suspended :=
  match p with
  | Ret _ | Throw _ => (st, happened, None)
  | Do a k => advance k (update a st) (happened ++ [Did a])%list
  | Await c k =>
      (st, (happened ++ [Started c])%list,
       Some {| awaited_type := _; awaited := c; resume := k |})
  end.

Fixpoint replace {B} (n : nat) (b : B) (l : list B) : list B :=
  match l, n with
  | [], _ => []
  | _ :: rest, O => b :: rest
  | x :: rest, S n' => x :: replace n' b rest
  end.

(** What the environment does to the screen: the user presses the button
    or edits the address, or the call awaited by a flow settles. *)
Inductive Input : Type :=
| Press
| Edit (text : string)
| Settle (flow : nat) (o : Outcome).

Section React.
Context {rt : Runtime}.

(** A press calls the [takePhoto] of the render of the current state; an
    edit calls [setServerIP]; a settled call resumes the flow that awaits
    it. *)
Definition react (ss : Session) (i : Input) : Session :=
  match i with
  | Press =>
      let '(st, happened, suspended) := advance (takePhoto (store ss)) (store ss) (log ss) in
      {| store := st; flows := (flows ss ++ [suspended])%list; log := happened |}
  | Edit text =>
      let '(st, happened, _) := advance (call (setServerIP text)) (store ss) (log ss) in
      {| store := st; flows := flows ss; log := happened |}
  | Settle n o =>
      match nth_error (flows ss) n with
      | Some (Some flow) =>
          match outcome_for (awaited flow) o with
          | Some settled =>
              let '(st, happened, suspended) :=
                advance (resume flow settled) (store ss)
                  (log ss ++ [Finished (awaited flow) settled])%list in
              {| store := st; flows := replace n suspended (flows ss); log := happened |}
          | None => ss
          end
      | _ => ss
      end
  end.

Definition play (inputs : list Input) (ss : Session) : Session := fold_left react inputs ss.

End React.

(** The requests that have been sent and are awaited. *)
Definition awaited_request (flow : option Suspended) : option (string * RequestInit) :=
  match flow with
  | Some suspended => request_of (Started (awaited suspended))
  | None => None
  end.

Fixpoint awaited_requests (fl : list (option Suspended)) : list (string * RequestInit) :=
  match fl with
  | [] => []
  | flow :: rest =>
      match awaited_request flow with
      | Some request => request :: awaited_requests rest
      | None => awaited_requests rest
      end
  end.

End EventLoop.

Export EventLoop.

(* ================================================================== *)
(** * Values of the declared shape *)
(* ================================================================== *)

Module Typed.

(** A value is a [Prediction] when it is an object whose three properties
    have the types the interface declares. *)
Definition as_Prediction (v : Value) : option Prediction :=
  match v with
  | VObject props =>
      match own_property "class_id" props,
            own_property "class_name" props,
            own_property "probability" props with
      | Some (VString id), Some (VString name), Some (VNumber p) =>
          Some {| class_id := id; class_name := name; probability := p |}
      | _, _, _ => None
      end
  | _ => None
  end.

Fixpoint as_list (elems : list Value) : option (list Prediction) :=
  match elems with
  | [] => Some []
  | e :: rest =>
      match as_Prediction e, as_list rest with
      | Some p, Some ps => Some (p :: ps)
      | _, _ => None
      end
  end.

(** A value is a [Prediction[]] when it is an array of such objects. *)
Definition as_Predictions (v : Value) : option (list Prediction) :=
  match v with
  | VArray elems => as_list elems
  | _ => None
  end.

Section Spec.
Context {rt : Runtime}.

(** The percentage of a prediction: [probability * 100] to two decimals. *)
Definition percentage (p : Prediction) : string :=
  toFixed (mul (probability p) (of_Z 100)) 2.

(** The sentence of the specification:
    "{class_name} con {probability*100 formatted to 2 decimals}% de probabilidad",
    one per prediction in list order, joined with ". ". *)
Definition spec_sentence (p : Prediction) : string :=
  class_name p ++ " con " ++ percentage p ++ "% de probabilidad".

Definition spec_announcement (ps : list Prediction) : string :=
  String.concat ". " (map spec_sentence ps).

(** The entry of the specification for the prediction at [index]: its name
    and its percentage followed by "%". *)
Definition spec_entry (index : nat) (p : Prediction) : Element :=
  Keyed index
    (View "predictionItem"
       [View "predictionContent"
          [Text "predictionName" [Embedded (VString (class_name p))];
           Text "predictionProb" [Embedded (VString (percentage p)); Literal "%"]]]).

Fixpoint spec_entries (index : nat) (ps : list Prediction) : list Element :=
  match ps with
  | [] => []
  | p :: rest => spec_entry index p :: spec_entries (S index) rest
  end.

End Spec.

End Typed.

Export Typed.

(* ================================================================== *)
(** * What the properties speak of *)
(* ================================================================== *)

Module Statements.

(** The address and the options of the request of one upload. *)
Definition predict_url (st : State) : string := "http://" ++ serverIP st ++ ":8720/predict/".

Definition predict_init (uri : string) : RequestInit :=
  {| method := "POST";
     body := [("file", {| file_uri := uri; file_type := "image/jpeg"; file_name := "photo.jpg" |})];
     headers := [("Content-Type", "multipart/form-data")] |}.

Definition generic_alert : string := "Error al procesar la imagen".
Definition permission_alert : string := "Se requieren permisos para usar la cámara.".

(** The three calls of a flow whose outcome decides its course. *)
Definition the_permission_request : Call PermissionResponse := requestCameraPermissionsAsync.
Definition the_camera : Call ImagePickerResult := launchCameraAsync camera_options.
Definition the_fetch (render : State) (uri : string) : Call Response :=
  fetch (predict_url render) (predict_init uri).

(** The ways in which an upload can fail: the fetch rejects, the body of
    the response does not parse, the status of the response is not 2xx. *)
Definition fetch_rejects (env : Env) (render : State) (uri : string) : Prop :=
  exists error, settle env _ (the_fetch render uri) = Rejected error.

Definition body_unparsable (env : Env) (render : State) (uri : string) : Prop :=
  exists response error,
    settle env _ (the_fetch render uri) = Fulfilled response
    /\ settle env _ (Response_json response) = Rejected error.

Definition non_2xx (env : Env) (render : State) (uri : string) : Prop :=
  exists response,
    settle env _ (the_fetch render uri) = Fulfilled response /\ response_ok response = false.

(** The state right after the transition into loading of a capture that
    gave [photo], when the state before the capture was [st]. *)
Definition loading_state (st : State) (photo : string) : State :=
  {| imageUri := Some photo;
     predictions := predictions st;
     isLoading := true;
     serverIP := serverIP st |}.

(** At every moment of a flow the request being in flight implies
    [isLoading], and [isLoading] holds exactly when the upload has begun
    and the flow has not come to its end. *)
Definition loading_spans_upload {A} (st : State) (r : Result A) : Prop :=
  Forall (fun m =>
            (in_flight (past m) = true -> isLoading (now m) = true)
            /\ (isLoading (now m) = true <->
                began_upload (past m) = true /\ ahead m <> []))
         (moments st r).

End Statements.

Export Statements.

(* ================================================================== *)
(** * Inputs for concrete runs *)
(* ================================================================== *)

Module Sample.

(** An engine for the runs below. None of them converts a number to text
    or text to a number through it, so each holds as it stands for every
    engine. *)
Definition engine : Runtime :=
  {| NumberToString := fun _ => "NaN"; StringToNumber := fun _ => NaN |}.

Definition gato : Prediction :=
  {| class_id := "1"; class_name := "gato"; probability := ratio 9321 10000 |}.

Definition encode (p : Prediction) : Value :=
  VObject [("class_id", VString (class_id p));
           ("class_name", VString (class_name p));
           ("probability", VNumber (probability p))].

(** A session that points at 192.168.1.5 and has shown nothing yet, and
    one that shows the result of an earlier capture. *)
Definition fresh : State :=
  {| imageUri := None; predictions := VArray []; isLoading := false;
     serverIP := "192.168.1.5" |}.

Definition seen : State :=
  {| imageUri := Some "file:///cache/earlier.jpg";
     predictions := VArray [encode gato];
     isLoading := false;
     serverIP := "192.168.1.5" |}.

Definition snapshot : string := "file:///cache/photo.jpg".

Definition allowed : Settled PermissionResponse := Fulfilled {| status := granted |}.
Definition refused : Settled PermissionResponse := Fulfilled {| status := denied |}.

Definition captured : Settled ImagePickerResult :=
  Fulfilled {| canceled := false; assets := Some [{| uri := snapshot |}] |}.
Definition cancelled : Settled ImagePickerResult :=
  Fulfilled {| canceled := true; assets := None |}.

Definition ok_200 : Response := {| response_status := 200 |}.
Definition error_500 : Response := {| response_status := 500 |}.

(** The server answers 200 with one prediction. *)
Definition answering : Env :=
  environment allowed captured (Fulfilled ok_200)
    (Fulfilled (VObject [("predictions", VArray [encode gato])])) (Fulfilled tt).

(** The server answers 500 with a JSON object that describes the error. *)
Definition failing : Env :=
  environment allowed captured (Fulfilled error_500)
    (Fulfilled (VObject [("detail", VString "Internal Server Error")])) (Fulfilled tt).

(** The server answers 200 with the body [null]. *)
Definition answering_null : Env :=
  environment allowed captured (Fulfilled ok_200) (Fulfilled VNull) (Fulfilled tt).

(** The server cannot be reached. *)
Definition unreachable : Env :=
  environment allowed captured (Rejected NetworkError) (Rejected SyntaxError) (Fulfilled tt).

(** The user cancels the camera. *)
Definition cancelling : Env :=
  environment allowed cancelled (Rejected NetworkError) (Rejected SyntaxError) (Fulfilled tt).

(** The user refuses the permission. *)
Definition refusing : Env :=
  environment refused cancelled (Rejected NetworkError) (Rejected SyntaxError) (Fulfilled tt).

End Sample.

Export Sample.

(* ================================================================== *)
(** * What a tree shows *)
(* ================================================================== *)

Module Shown.

(** The scroll views of a tree, each with its style and its children, in
    document order. *)
Fixpoint scrolled (e : Element) : list (string * list Element) :=
  let all := fix all (l : list Element) : list (string * list Element) :=
               match l with
               | [] => []
               | x :: rest => (scrolled x ++ all rest)%list
               end in
  match e with
  | View _ children | Text _ children | TouchableOpacity _ _ children => all children
  | ScrollView style children => (style, children) :: all children
  | Keyed _ element => scrolled element
  | TextInput _ _ _ _ _ | Image _ _ | MaterialCommunityIcons _ _ _
  | ActivityIndicator _ _ | Literal _ | Embedded _ => []
  end.

Fixpoint scrolled_of_all (l : list Element) : list (string * list Element) :=
  match l with
  | [] => []
  | x :: rest => (scrolled x ++ scrolled_of_all rest)%list
  end.

(** The number of activity indicators in a tree. *)
Fixpoint indicators (e : Element) : nat :=
  let all := fix all (l : list Element) : nat :=
               match l with
               | [] => 0
               | x :: rest => indicators x + all rest
               end in
  match e with
  | View _ children | Text _ children | TouchableOpacity _ _ children
  | ScrollView _ children => all children
  | Keyed _ element => indicators element
  | ActivityIndicator _ _ => 1
  | TextInput _ _ _ _ _ | Image _ _ | MaterialCommunityIcons _ _ _
  | Literal _ | Embedded _ => 0
  end.

Fixpoint indicators_of_all (l : list Element) : nat :=
  match l with
  | [] => 0
  | x :: rest => indicators x + indicators_of_all rest
  end.

(** The text children of a tree, literal or embedded, in document order. *)
Fixpoint leaves (e : Element) : list Element :=
  let all := fix all (l : list Element) : list Element :=
               match l with
               | [] => []
               | x :: rest => (leaves x ++ all rest)%list
               end in
  match e with
  | View _ children | Text _ children | TouchableOpacity _ _ children
  | ScrollView _ children => all children
  | Keyed _ element => leaves element
  | Literal text => [Literal text]
  | Embedded v => [Embedded v]
  | TextInput _ _ _ _ _ | Image _ _ | MaterialCommunityIcons _ _ _
  | ActivityIndicator _ _ => []
  end.

Fixpoint leaves_of_all (l : list Element) : list Element :=
  match l with
  | [] => []
  | x :: rest => (leaves x ++ leaves_of_all rest)%list
  end.

Section Entries.
Context {rt : Runtime}.

(** What the entry of a prediction reads: its name, its percentage and
    the sign "%". *)
Definition entry_texts (p : Prediction) : list Element :=
  [Embedded (VString (class_name p));
   Embedded (VString (toFixed (mul (probability p) (of_Z 100)) 2));
   Literal "%"].

Fixpoint entries_texts (ps : list Prediction) : list Element :=
  match ps with
  | [] => []
  | p :: rest => (entry_texts p ++ entries_texts rest)%list
  end.

End Entries.

End Shown.

Export Shown.

(* ================================================================== *)
(** * The style sheet *)
(* ================================================================== *)

Module Styles.

Definition px (n : Z) : Value := VNumber (of_Z n).

Definition shadow_offset : Value := VObject [("width", px 0); ("height", px 2)].

(** The argument of [StyleSheet.create]; [styles.name] is [Get styles name]. *)
Definition styles : Value :=
  VObject
    [("container",
      VObject [("flex", px 1); ("backgroundColor", VString "#F5F6FA");
               ("padding", px 10); ("paddingTop", px 80)]);
     ("title",
      VObject [("fontSize", px 22); ("marginBottom", px 15); ("fontWeight", VString "bold");
               ("textAlign", VString "center"); ("color", VString "#2D3436")]);
     ("ipInputContainer", VObject [("marginBottom", px 15)]);
     ("ipLabel",
      VObject [("fontSize", px 16); ("marginBottom", px 5); ("color", VString "#2D3436")]);
     ("ipInput",
      VObject [("backgroundColor", VString "white"); ("borderRadius", px 10);
               ("padding", px 10); ("fontSize", px 16); ("borderWidth", px 1);
               ("borderColor", VString "#E1E4E8")]);
     ("imageCard",
      VObject [("backgroundColor", VString "white"); ("borderRadius", px 15);
               ("padding", px 10); ("marginTop", px 15); ("shadowColor", VString "#000");
               ("shadowOffset", shadow_offset); ("shadowOpacity", VNumber (ratio 15 100));
               ("shadowRadius", VNumber (ratio 384 100)); ("elevation", px 3)]);
     ("image",
      VObject [("width", VString "100%"); ("height", px 200); ("borderRadius", px 10)]);
     ("button",
      VObject [("backgroundColor", VString "#6C63FF"); ("flexDirection", VString "row");
               ("alignItems", VString "center"); ("justifyContent", VString "center");
               ("padding", px 15); ("borderRadius", px 12); ("gap", px 10);
               ("shadowColor", VString "#6C63FF"); ("shadowOffset", shadow_offset);
               ("shadowOpacity", VNumber (ratio 25 100));
               ("shadowRadius", VNumber (ratio 384 100)); ("elevation", px 4)]);
     ("buttonText",
      VObject [("color", VString "white"); ("fontSize", px 18); ("fontWeight", VString "600")]);
     ("loadingContainer", VObject [("marginTop", px 20); ("alignItems", VString "center")]);
     ("loadingText",
      VObject [("marginTop", px 10); ("fontSize", px 16); ("color", VString "#6C63FF");
               ("fontWeight", VString "500")]);
     ("predictionsCard",
      VObject [("backgroundColor", VString "white"); ("borderRadius", px 15);
               ("padding", px 7); ("marginTop", px 15); ("shadowColor", VString "#000");
               ("shadowOffset", shadow_offset); ("shadowOpacity", VNumber (ratio 15 100));
               ("shadowRadius", VNumber (ratio 384 100)); ("elevation", px 3)]);
     ("predictionsContainer", VObject [("maxHeight", px 250)]);
     ("predictionsTitle",
      VObject [("fontSize", px 20); ("fontWeight", VString "bold"); ("marginBottom", px 15);
               ("color", VString "#2D3436"); ("textAlign", VString "center")]);
     ("predictionItem", VObject [("marginBottom", px 10)]);
     ("predictionContent",
      VObject [("backgroundColor", VString "#F8F9FE"); ("padding", px 13);
               ("borderRadius", px 10); ("flexDirection", VString "row");
               ("justifyContent", VString "space-between"); ("alignItems", VString "center")]);
     ("predictionName",
      VObject [("fontSize", px 14); ("fontWeight", VString "500"); ("color", VString "#2D3436");
               ("textTransform", VString "capitalize")]);
     ("predictionProb",
      VObject [("fontSize", px 16); ("fontWeight", VString "600"); ("color", VString "#6C63FF")])].

(** [styles.name] is an object of the sheet, not [undefined]. *)
Definition style_defined (name : string) : bool :=
  match Get styles name with
  | Normal (VObject _) => true
  | _ => false
  end.

(** The styles an element tree refers to, in document order. *)
Fixpoint style_names (e : Element) : list string :=
  let all := fix all (l : list Element) : list string :=
               match l with
               | [] => []
               | x :: rest => (style_names x ++ all rest)%list
               end in
  match e with
  | View style children => style :: all children
  | Keyed _ element => style_names element
  | Text style children => style :: all children
  | TextInput style _ _ _ _ => [style]
  | TouchableOpacity style _ children => style :: all children
  | Image _ style => [style]
  | ScrollView style children => style :: all children
  | MaterialCommunityIcons _ _ _ | ActivityIndicator _ _ | Literal _ | Embedded _ => []
  end.

Fixpoint styles_of_all (l : list Element) : list string :=
  match l with
  | [] => []
  | x :: rest => (style_names x ++ styles_of_all rest)%list
  end.

End Styles.

Export Styles.

(* ================================================================== *)
(** * The handlers of a tree *)
(* ================================================================== *)

Module Handlers.

(** The [onPress] handlers of the touchable elements of a tree. *)
Fixpoint press_handlers (e : Element) : list (Prog unit) :=
  let all := fix all (l : list Element) : list (Prog unit) :=
               match l with
               | [] => []
               | x :: rest => (press_handlers x ++ all rest)%list
               end in
  match e with
  | View _ children | Text _ children | ScrollView _ children => all children
  | Keyed _ element => press_handlers element
  | TouchableOpacity _ onPress children => onPress :: all children
  | TextInput _ _ _ _ _ | Image _ _ | MaterialCommunityIcons _ _ _
  | ActivityIndicator _ _ | Literal _ | Embedded _ => []
  end.

Fixpoint press_handlers_of_all (l : list Element) : list (Prog unit) :=
  match l with
  | [] => []
  | x :: rest => (press_handlers x ++ press_handlers_of_all rest)%list
  end.

(** The text inputs of a tree: the value shown and the [onChangeText]
    handler. *)
Fixpoint text_inputs (e : Element) : list (string * (string -> Prog unit)) :=
  let all := fix all (l : list Element) : list (string * (string -> Prog unit)) :=
               match l with
               | [] => []
               | x :: rest => (text_inputs x ++ all rest)%list
               end in
  match e with
  | View _ children | Text _ children | ScrollView _ children => all children
  | Keyed _ element => text_inputs element
  | TouchableOpacity _ _ children => all children
  | TextInput _ value onChangeText _ _ => [(value, onChangeText)]
  | Image _ _ | MaterialCommunityIcons _ _ _
  | ActivityIndicator _ _ | Literal _ | Embedded _ => []
  end.

Fixpoint text_inputs_of_all (l : list Element) : list (string * (string -> Prog unit)) :=
  match l with
  | [] => []
  | x :: rest => (text_inputs x ++ text_inputs_of_all rest)%list
  end.

End Handlers.

Export Handlers.

(* ================================================================== *)
(** * What the further properties speak of *)
(* ================================================================== *)

Module Flows.

(** The loading indicator. *)
Definition loading_view : Element :=
  View "loadingContainer"
    [ActivityIndicator "large" "#6C63FF";
     Text "loadingText" [Literal "Analizando imagen..."]].

(** A capture that was not cancelled and gave [photo] first. *)
Definition capture_of (photo : string) (more : list ImagePickerAsset) : Settled ImagePickerResult :=
  Fulfilled {| canceled := false; assets := Some ({| uri := photo |} :: more) |}.

(** A first capture, and a second one made while the upload of the first
    is in flight. *)
Definition two_captures (first second : string) : list Input :=
  [Press; Settle 0 (Permission (Fulfilled {| status := granted |}));
   Settle 0 (Capture (capture_of first []));
   Press; Settle 1 (Permission (Fulfilled {| status := granted |}));
   Settle 1 (Capture (capture_of second []))].

(** The permission is granted to the first flow. *)
Definition granting : Input := Settle 0 (Permission (Fulfilled {| status := granted |})).

(** A session in the middle of an upload. *)
Definition busy : State :=
  {| imageUri := Some "file:///cache/photo.jpg";
     predictions := VArray [encode gato];
     isLoading := true;
     serverIP := "192.168.1.5" |}.

(** The body and the capture of the sample runs. *)
Definition gato_body : Value := VObject [("predictions", VArray [encode gato])].
Definition gato_result : ImagePickerResult :=
  {| canceled := false; assets := Some [{| uri := snapshot |}] |}.

(** The speech engine fails. *)
Definition mute : Env :=
  environment allowed captured (Fulfilled ok_200)
    (Fulfilled (VObject [("predictions", VArray [encode gato])]))
    (Rejected (OtherError "speech engine unavailable")).


(** The server answers with a list that holds [null]. *)
Definition answering_hole : Env :=
  environment allowed captured (Fulfilled ok_200)
    (Fulfilled (VObject [("predictions", VArray [encode gato; VNull])])) (Fulfilled tt).

(** The camera fails. *)
Definition camera_failing : Env :=
  environment allowed (Rejected (OtherError "camera unavailable"))
    (Rejected NetworkError) (Rejected SyntaxError) (Fulfilled tt).

(** The camera reports a capture without assets. *)
Definition capturing_nothing : Env :=
  environment allowed (Fulfilled {| canceled := false; assets := Some [] |})
    (Rejected NetworkError) (Rejected SyntaxError) (Fulfilled tt).

End Flows.

Export Flows.

(* ================================================================== *)
(** * Properties *)
(* ================================================================== *)

Arguments textToSpeak {rt} predictions : simpl never.
Arguments Get v p : simpl never.

Ltac conjuncts := repeat match goal with |- _ /\ _ => split end.

(** The five places where a run of [sendImageToServer] branches: the
    fetch, the reading of the body, the read of [data.predictions], the
    building of the sentence and the call of the speech engine. *)
Ltac upload_cases env :=
  unfold sendImageToServer, speakPredictions; cbn;
  destruct (settle env _ (fetch _ _)) as [response|error] eqn:Hfetch; cbn;
  [ destruct (settle env _ (Response_json response)) as [data|error] eqn:Hjson; cbn;
    [ destruct (Get data "predictions") as [stored|error] eqn:Hget; cbn;
      [ destruct (textToSpeak stored) as [text|error] eqn:Htext; cbn;
        [ destruct (settle env _ (Speech_speak text speech_options))
            as [[]|error] eqn:Hspeak; cbn
        | ]
      | ]
    | ]
  | ].

(** ** Rounding to a number of decimals *)

(** [nearest_scaled m e f] is within one half of [m * 2^e * 10^f], and is
    the larger of the two integers when both are one half away. *)
Lemma nearest_scaled_nearest (m e : Z) (f : nat) :
  (e < 0)%Z ->
  let n := nearest_scaled m e f in
  let d := (2 ^ (- e))%Z in
  (2 * (m * 10 ^ Z.of_nat f) - d < 2 * d * n <= 2 * (m * 10 ^ Z.of_nat f) + d)%Z.
Proof.
  intros He n d. subst n. unfold nearest_scaled.
  destruct (Z.leb_spec 0 e) as [H|_]; [lia | ]. fold d.
  assert (Hd : (0 < d)%Z) by (subst d; apply Z.pow_pos_nonneg; lia).
  set (s := (m * 10 ^ Z.of_nat f)%Z).
  pose proof (Z.div_mod (2 * s + d) (2 * d) ltac:(lia)) as Hdiv.
  pose proof (Z.mod_pos_bound (2 * s + d) (2 * d) ltac:(lia)) as Hmod.
  lia.
Qed.

Lemma nearest_scaled_exact (m e : Z) (f : nat) :
  (0 <= e)%Z -> nearest_scaled m e f = (m * 10 ^ Z.of_nat f * 2 ^ e)%Z.
Proof.
  intros He. unfold nearest_scaled.
  destruct (Z.leb_spec 0 e) as [_|H]; [reflexivity | lia].
Qed.

Section TypedValues.
Context {rt : Runtime}.

Lemma phrase_of_Prediction (v : Value) (p : Prediction) :
  as_Prediction v = Some p -> phrase v = Normal (spec_sentence p).
Proof.
  destruct v as [| | | | | |props]; try discriminate. unfold as_Prediction.
  destruct (own_property "class_id" props) as [[| | | |id| |]|] eqn:Hid; try discriminate.
  destruct (own_property "class_name" props) as [[| | | |name| |]|] eqn:Hname; try discriminate.
  destruct (own_property "probability" props) as [[| | |x| | |]|] eqn:Hp; try discriminate.
  intros [= <-]. unfold phrase, Get. rewrite Hname, Hp. reflexivity.
Qed.

Lemma phrases_of_list (elems : list Value) (ps : list Prediction) :
  as_list elems = Some ps -> map_elems phrase elems = Normal (map spec_sentence ps).
Proof.
  revert ps. induction elems as [|e rest IH]; intros ps; simpl.
  - intros [= <-]. reflexivity.
  - destruct (as_Prediction e) as [p|] eqn:He; try discriminate.
    destruct (as_list rest) as [ps'|]; try discriminate.
    intros [= <-]. rewrite (phrase_of_Prediction _ _ He), (IH ps' eq_refl). reflexivity.
Qed.

Lemma textToSpeak_of_Predictions (v : Value) (ps : list Prediction) :
  as_Predictions v = Some ps -> textToSpeak v = Normal (spec_announcement ps).
Proof.
  destruct v as [| | | | |elems|]; try discriminate. simpl. intros H.
  unfold textToSpeak, Array_map. rewrite (phrases_of_list _ _ H). reflexivity.
Qed.

End TypedValues.

Section Upload.
Context {rt : Runtime}.
Variables (env : Env) (render st : State) (uri : string).

Let r := run env (sendImageToServer render uri) st.

Lemma upload_final_loading : isLoading (final r) = false.
Proof. subst r. upload_cases env; reflexivity. Qed.

Lemma upload_completion : completion r = Normal tt.
Proof. subst r. upload_cases env; reflexivity. Qed.

(** C3. Every run of the upload, however the fetch, the reading of the
    body and the speech step turn out, comes to an end, and it ends with
    [isLoading] set to false: the last thing it does is
    [setIsLoading(false)], and the promise it returned is fulfilled. *)
Theorem upload_always_releases_loading :
  isLoading (final r) = false
  /\ completion r = Normal tt
  /\ exists earlier, events r = (earlier ++ [Did (setIsLoading false)])%list.
Proof.
  split; [exact upload_final_loading | split; [exact upload_completion | ]].
  subst r. unfold events.
  upload_cases env;
    match goal with
    | |- exists _, ?l = _ => exists (removelast l); reflexivity
    end.
Qed.

(** ** The request *)

Lemma upload_requests : requests (events r) = [(predict_url render, predict_init uri)].
Proof. subst r. unfold events. upload_cases env; reflexivity. Qed.

(** ** Failure of an attempt *)

(** Nothing reads the status of a response, and a failure of the speech
    engine is only logged: two attempts whose responses carry the same
    body end in the same state with the same alerts, stores and
    utterances, whatever the statuses and whatever the speech engine does. *)
Lemma status_is_not_read (env' : Env) (response response' : Response) :
  settle env _ (the_fetch render uri) = Fulfilled response ->
  settle env' _ (the_fetch render uri) = Fulfilled response' ->
  settle env' _ (Response_json response') = settle env _ (Response_json response) ->
  let r' := run env' (sendImageToServer render uri) st in
  final r' = final r
  /\ alerts (events r') = alerts (events r)
  /\ stores (events r') = stores (events r)
  /\ utterances (events r') = utterances (events r).
Proof.
  unfold the_fetch, predict_init, predict_url. intros Hf Hf' Hj. cbn in Hf, Hf'.
  subst r. unfold events, sendImageToServer, speakPredictions. cbn.
  rewrite Hf, Hf'. cbn. rewrite Hj.
  destruct (settle env _ (Response_json response)) as [data|error]; cbn;
    [ | repeat split ].
  destruct (Get data "predictions") as [v|error]; cbn; [ | repeat split ].
  destruct (textToSpeak v) as [text|error]; cbn; [ | repeat split ].
  destruct (settle env' _ (Speech_speak text speech_options)) as [[]|error'];
    destruct (settle env _ (Speech_speak text speech_options)) as [[]|error];
    repeat split.
Qed.

(** C1, as amended. When the fetch rejects or the body fails to parse as
    JSON, the loading flag is cleared, the generic alert is shown, once,
    and the stored predictions are the ones stored before the attempt.
    After a non-2xx response the loading flag is cleared, and nothing more
    follows from the status: the alert and the stored predictions depend
    on the body alone, so the attempt ends as any attempt with the same
    body does, under any status. *)
Theorem failed_upload_keeps_predictions :
  (fetch_rejects env render uri \/ body_unparsable env render uri ->
     isLoading (final r) = false
     /\ alerts (events r) = [generic_alert]
     /\ predictions (final r) = predictions st)
  /\ (non_2xx env render uri -> isLoading (final r) = false)
  /\ (forall env' response response',
        settle env _ (the_fetch render uri) = Fulfilled response ->
        settle env' _ (the_fetch render uri) = Fulfilled response' ->
        settle env' _ (Response_json response') = settle env _ (Response_json response) ->
        final (run env' (sendImageToServer render uri) st) = final r
        /\ alerts (events (run env' (sendImageToServer render uri) st)) = alerts (events r)
        /\ stores (events (run env' (sendImageToServer render uri) st)) = stores (events r)).
Proof.
  split; [ | split ].
  - unfold fetch_rejects, body_unparsable, the_fetch, predict_init, predict_url.
    intros [[error H] | [response [error [H1 H2]]]]; subst r; unfold events;
      unfold sendImageToServer; cbn in *.
    + rewrite H. cbn. repeat split.
    + rewrite H1. cbn. rewrite H2. cbn. repeat split.
  - intros _. exact upload_final_loading.
  - intros env' response response' Hf Hf' Hj.
    destruct (status_is_not_read env' response response' Hf Hf' Hj) as [H1 [H2 [H3 _]]].
    repeat split; assumption.
Qed.

(** ** The response *)

(** C10, as amended. When the body parses to a value other than [null],
    the stored predictions are overwritten with the [predictions] property
    of that value, [undefined] when it has none, whatever its shape, and
    before anything is spoken or alerted; when the value has no such
    property the stored predictions are [undefined] by the time the generic
    alert is shown. When the body parses to [null], reading the property
    throws: nothing is stored, the predictions stay and the alert is shown. *)
Theorem parsed_body_overwrites_predictions (response : Response) (data : Value) :
  settle env _ (the_fetch render uri) = Fulfilled response ->
  settle env _ (Response_json response) = Fulfilled data ->
  (data <> VNull -> data <> VUndefined ->
     exists v,
       Get data "predictions" = Normal v
       /\ (exists before later,
             events r = (before ++ Did (setPredictions v) :: later)%list
             /\ utterances before = [] /\ alerts before = [] /\ stores before = []
             /\ stores later = [])
       /\ predictions (final r) = v
       /\ (v = VUndefined ->
             alerts (events r) = [generic_alert] /\ utterances (events r) = []))
  /\ (data = VNull ->
        stores (events r) = []
        /\ predictions (final r) = predictions st
        /\ alerts (events r) = [generic_alert]).
Proof.
  unfold the_fetch, predict_init, predict_url. intros Hf Hj. cbn in Hf.
  split.
  - intros Hnull Hundef.
    assert (exists v, Get data "predictions" = Normal v) as [v Hv].
    { unfold Get. destruct data; try congruence; eexists; reflexivity. }
    exists v. split; [exact Hv | ].
    subst r. unfold events, sendImageToServer, speakPredictions. cbn.
    rewrite Hf. cbn. rewrite Hj. cbn. rewrite Hv. cbn.
    split; [ | split ].
    + eexists [_; _; _; _; _], _. split; [reflexivity | ].
      repeat split.
      destruct (textToSpeak v) as [text|error]; cbn; [ | reflexivity].
      destruct (settle env _ (Speech_speak _ _)) as [[]|error]; reflexivity.
    + destruct (textToSpeak v) as [text|error]; cbn; [ | reflexivity].
      destruct (settle env _ (Speech_speak _ _)) as [[]|error]; reflexivity.
    + intros ->. split; reflexivity.
  - intros ->. subst r. unfold events, sendImageToServer. cbn.
    rewrite Hf. cbn. rewrite Hj. cbn. repeat split.
Qed.

(** ** The announcement *)

(** C4. When the response carries a list of predictions, the speech engine
    is called once, with the sentences of the predictions,
    "{class_name} con {probability*100 to 2 decimals}% de probabilidad",
    in list order and joined with ". ". *)
Theorem speech_announces_predictions
    (response : Response) (data v : Value) (ps : list Prediction) :
  settle env _ (the_fetch render uri) = Fulfilled response ->
  settle env _ (Response_json response) = Fulfilled data ->
  Get data "predictions" = Normal v ->
  as_Predictions v = Some ps ->
  ps <> [] ->
  utterances (events r) = [(spec_announcement ps, speech_options)].
Proof.
  unfold the_fetch, predict_init, predict_url. intros Hf Hj Hv Hps _. cbn in Hf.
  subst r. unfold events, sendImageToServer, speakPredictions. cbn.
  rewrite Hf. cbn. rewrite Hj. cbn. rewrite Hv. cbn.
  rewrite (textToSpeak_of_Predictions _ _ Hps). cbn.
  destruct (settle env _ (Speech_speak _ _)) as [[]|error]; reflexivity.
Qed.

End Upload.

(** The places where a run of [takePhoto] branches before the upload. *)
Ltac capture_cases env :=
  unfold takePhoto; cbn;
  destruct (settle env _ requestCameraPermissionsAsync) as [[[]]|error] eqn:Hperm; cbn;
  [ destruct (settle env _ (launchCameraAsync _)) as [[cancel taken]|error] eqn:Hcam; cbn;
    [ destruct cancel; cbn; [ | destruct taken as [[|[photo] more]|]; cbn ]
    | ]
  | | | ].

Ltac each_moment tac :=
  unfold moments; cbn;
  repeat (apply Forall_cons; [ cbn; tac | ]); try apply Forall_nil.

Section Capture.
Context {rt : Runtime}.
Variables (env : Env) (render st : State).

Let r := run env (takePhoto render) st.

(** C9. When the permission is not granted, the flow is the request for
    the permission and one alert: the camera is not opened, no request
    is sent, nothing of the upload runs, and the state is not modified. *)
Theorem denied_permission_alerts_only (permission : PermissionResponse) :
  settle env _ the_permission_request = Fulfilled permission ->
  status permission <> granted ->
  events r = [Started the_permission_request;
              Finished the_permission_request (Fulfilled permission);
              Did (alert permission_alert)]
  /\ alerts (events r) = [permission_alert]
  /\ requests (events r) = []
  /\ began_upload (events r) = false
  /\ Forall (fun m => now m = st) (moments st r)
  /\ final r = st.
Proof.
  unfold the_permission_request. intros Hp Hs.
  subst r. unfold events, moments, takePhoto. cbn. rewrite Hp. cbn.
  destruct permission as [[]]; cbn in *; try congruence;
    repeat split; repeat constructor.
Qed.

(** C8. When the permission is granted and the user cancels the camera,
    the state is at every moment, and at the end, the state before the
    attempt, field by field; no request is sent, nothing is alerted or
    logged, and the flow completes normally. *)
Theorem cancelled_capture_changes_nothing
    (permission : PermissionResponse) (result : ImagePickerResult) :
  settle env _ the_permission_request = Fulfilled permission ->
  status permission = granted ->
  settle env _ the_camera = Fulfilled result ->
  canceled result = true ->
  (imageUri (final r) = imageUri st
   /\ predictions (final r) = predictions st
   /\ isLoading (final r) = isLoading st
   /\ serverIP (final r) = serverIP st)
  /\ final r = st
  /\ Forall (fun m => now m = st) (moments st r)
  /\ requests (events r) = []
  /\ alerts (events r) = []
  /\ logged (events r) = []
  /\ completion r = Normal tt.
Proof.
  unfold the_permission_request, the_camera. intros Hp Hs Hc Hx.
  subst r. unfold events, moments, takePhoto. cbn. rewrite Hp. cbn.
  rewrite Hs. cbn. rewrite Hc. cbn. rewrite Hx. cbn.
  repeat split; repeat constructor.
Qed.

(** C7, as amended. After a capture that was not cancelled, the
    transition into loading leaves the stored predictions as they were,
    and they stay so at every moment until the body of the response has
    been parsed. They are then replaced, whole, by the [predictions]
    property of that body, whether the response is a successful one or
    not; when no body is parsed, or it parses to [null], they are at the
    end the ones from before. *)
Theorem capture_keeps_predictions_until_response
    (permission : PermissionResponse) (result : ImagePickerResult) (photo : string) :
  settle env _ the_permission_request = Fulfilled permission ->
  status permission = granted ->
  settle env _ the_camera = Fulfilled result ->
  canceled result = false ->
  first_asset_uri result = Normal photo ->
  In {| event := Did (setIsLoading true); after := loading_state st photo |} (trace r)
  /\ Forall (fun m => bodies (past m) = [] -> predictions (now m) = predictions st)
       (moments st r)
  /\ predictions (final r)
     = match bodies (events r) with
       | [data] =>
           match Get data "predictions" with
           | Normal v => v
           | Abrupt _ => predictions st
           end
       | _ => predictions st
       end.
Proof.
  unfold the_permission_request, the_camera, loading_state. intros Hp Hs Hc Hx Hu.
  subst r. unfold events, moments, takePhoto. cbn. rewrite Hp. cbn.
  rewrite Hs. cbn. rewrite Hc. cbn. rewrite Hx. cbn. rewrite Hu. cbn.
  upload_cases env;
    (split; [ do 5 right; left; reflexivity | split ]);
    try (repeat (apply Forall_cons; [ cbn; first [reflexivity | discriminate] | ]);
         apply Forall_nil);
    try rewrite Hget; reflexivity.
Qed.

End Capture.

(** ** The loading flag over a flow *)

Ltac loading_moment H :=
  split;
  [ intros Hin; first [reflexivity | discriminate Hin]
  | split;
    [ intros Hl; first [ split; [reflexivity | discriminate] | congruence ]
    | intros [Hb Ha]; first [reflexivity | discriminate Hb | contradiction ] ] ].

Section Loading.
Context {rt : Runtime}.
Variables (env : Env) (render st : State).

(** C2, as amended. In a flow that starts with [isLoading] false and runs
    on its own, [isLoading] is true at exactly the moments after the first
    statement of the upload and before its last, the one in [finally]: at
    every moment at which the request is in flight, and also once the body
    has been read, while the predictions are stored and the speech step is
    awaited. *)
Theorem loading_spans_the_upload (uri : string) :
  isLoading st = false ->
  loading_spans_upload st (run env (sendImageToServer render uri) st)
  /\ loading_spans_upload st (run env (takePhoto render) st).
Proof.
  intros H. unfold loading_spans_upload. split.
  - upload_cases env; each_moment ltac:(loading_moment H).
  - capture_cases env; try (each_moment ltac:(loading_moment H)).
    upload_cases env; each_moment ltac:(loading_moment H).
Qed.

End Loading.

(** ** The request of a flow *)

Section Edits.
Context {rt : Runtime}.

Lemma play_app (inputs later : list Input) (ss : Session) :
  play (inputs ++ later) ss = play later (play inputs ss).
Proof. apply fold_left_app. Qed.

Lemma last_after (ip : string) (rest : list string) (d : string) :
  last (ip :: rest) d = last rest ip.
Proof.
  revert ip d. induction rest as [|x more IH]; intros ip d; [reflexivity | ].
  change (last (ip :: x :: more) d) with (last (x :: more) d).
  rewrite (IH x d), (IH x ip). reflexivity.
Qed.

(** Edits of the address leave the flows, suspended or finished, as they
    are, and leave the last edited address in the state. *)
Lemma play_edits (ips : list string) (ss : Session) :
  flows (play (map Edit ips) ss) = flows ss
  /\ serverIP (store (play (map Edit ips) ss)) = last ips (serverIP (store ss)).
Proof.
  revert ss. induction ips as [|ip rest IH]; intros ss; [split; reflexivity | ].
  change (play (map Edit (ip :: rest)) ss) with (play (map Edit rest) (react ss (Edit ip))).
  destruct (IH (react ss (Edit ip))) as [H1 H2]. rewrite H1, H2, last_after.
  split; reflexivity.
Qed.

End Edits.

Section Request.
Context {rt : Runtime}.
Variables (env : Env) (st : State).

(** C6, as amended. An upload sends one request: a POST to
    "http://" ++ serverIP ++ ":8720/predict/" with the header
    [Content-Type: multipart/form-data] and a form of one part, named
    "file", with file name "photo.jpg" and type "image/jpeg". The address
    is the one of the render whose functions run, that is, the address in
    the state when the button was pressed: in a flow that runs on its own
    this is the address in the state at the moment the request is sent,
    and the file is the image just captured; edits of the address made
    while the flow is suspended change the state and not the request. *)
Theorem upload_request_shape (render : State) (uri : string) :
  requests (events (run env (sendImageToServer render uri) st))
  = [("http://" ++ serverIP render ++ ":8720/predict/",
      {| method := "POST";
         body := [("file", {| file_uri := uri;
                              file_type := "image/jpeg";
                              file_name := "photo.jpg" |})];
         headers := [("Content-Type", "multipart/form-data")] |})]
  /\ Forall (fun m =>
               forall url init,
                 next_request m = Some (url, init) ->
                 url = "http://" ++ serverIP (now m) ++ ":8720/predict/"
                 /\ exists photo,
                      imageUri (now m) = Some photo /\ init = predict_init photo)
       (moments st (run env (takePhoto st) st))
  /\ (forall (before during : list string) (photo : string) (more : list ImagePickerAsset),
        let ss := play (Press :: map Edit before
                        ++ Settle 0 (Permission (Fulfilled {| status := granted |}))
                        :: map Edit during
                        ++ [Settle 0 (Capture (Fulfilled
                                                 {| canceled := false;
                                                    assets := Some ({| uri := photo |} :: more) |}))])
                    (opening st) in
        awaited_requests (flows ss)
        = [("http://" ++ serverIP st ++ ":8720/predict/",
            {| method := "POST";
               body := [("file", {| file_uri := photo;
                                    file_type := "image/jpeg";
                                    file_name := "photo.jpg" |})];
               headers := [("Content-Type", "multipart/form-data")] |})]
        /\ serverIP (store ss) = last during (last before (serverIP st))).
Proof.
  split; [ | split ].
  - apply upload_requests.
  - capture_cases env;
      try (each_moment ltac:(intros url init; discriminate)).
    upload_cases env;
      each_moment
        ltac:(intros url init;
              first [ discriminate
                    | intros [= <- <-]; split; [reflexivity | eexists; split; reflexivity] ]).
  - intros before during photo more.
    change (play (Press :: ?l) (opening st)) with (play l (react (opening st) Press)).
    rewrite play_app.
    destruct (play_edits before (react (opening st) Press)) as [Hf Hs].
    destruct (play (map Edit before) (react (opening st) Press)) as [sto fl lg].
    cbn in Hf, Hs. subst fl.
    change (play (?i :: ?l) ?s) with (play l (react s i)).
    rewrite play_app.
    match goal with
    | |- context [play (map Edit during) ?s] =>
        destruct (play_edits during s) as [Hf' Hs'];
        destruct (play (map Edit during) s) as [sto' fl' lg']
    end.
    cbn in Hf', Hs'. subst fl'. cbn. rewrite Hs', Hs. split; reflexivity.
Qed.

End Request.

(** ** The list of results *)

Section Results.
Context {rt : Runtime}.

Lemma item_of_Prediction (v : Value) (p : Prediction) (index : nat) :
  as_Prediction v = Some p -> prediction_item v index = Normal (spec_entry index p).
Proof.
  destruct v as [| | | | | |props]; try discriminate. unfold as_Prediction.
  destruct (own_property "class_id" props) as [[| | | |id| |]|] eqn:Hid; try discriminate.
  destruct (own_property "class_name" props) as [[| | | |name| |]|] eqn:Hname; try discriminate.
  destruct (own_property "probability" props) as [[| | |x| | |]|] eqn:Hp; try discriminate.
  intros [= <-]. unfold prediction_item, Get. rewrite Hname, Hp. reflexivity.
Qed.

Lemma items_of_list (elems : list Value) (ps : list Prediction) (index : nat) :
  as_list elems = Some ps ->
  map_indexed prediction_item index elems = Normal (spec_entries index ps).
Proof.
  revert ps index. induction elems as [|e rest IH]; intros ps index; simpl.
  - intros [= <-]. reflexivity.
  - destruct (as_Prediction e) as [p|] eqn:He; try discriminate.
    destruct (as_list rest) as [ps'|]; try discriminate.
    intros [= <-].
    rewrite (item_of_Prediction _ _ _ He), (IH ps' (S index) eq_refl). reflexivity.
Qed.

Lemma as_list_length (elems : list Value) (ps : list Prediction) :
  as_list elems = Some ps -> List.length elems = List.length ps.
Proof.
  revert ps. induction elems as [|e rest IH]; intros ps; simpl.
  - intros [= <-]. reflexivity.
  - destruct (as_Prediction e); try discriminate.
    destruct (as_list rest) as [ps'|]; try discriminate.
    intros [= <-]. simpl. f_equal. apply IH. reflexivity.
Qed.

Lemma spec_entries_nth (ps : list Prediction) (start i : nat) (p : Prediction) :
  nth_error ps i = Some p ->
  nth_error (spec_entries start ps) i = Some (spec_entry (start + i) p).
Proof.
  revert start i. induction ps as [|q rest IH]; intros start [|i]; simpl; try discriminate.
  - intros [= <-]. rewrite Nat.add_0_r. reflexivity.
  - intros H. rewrite (IH (S start) i H). f_equal. f_equal. lia.
Qed.

Lemma spec_entries_length (ps : list Prediction) (start : nat) :
  List.length (spec_entries start ps) = List.length ps.
Proof. revert start. induction ps; intros; simpl; [reflexivity | f_equal; auto]. Qed.

Lemma all_scrolled (l : list Element) :
  (fix all (l : list Element) : list (string * list Element) :=
     match l with
     | [] => []
     | x :: rest => (scrolled x ++ all rest)%list
     end) l = scrolled_of_all l.
Proof. induction l as [|x rest IH]; simpl; [reflexivity | rewrite IH; reflexivity]. Qed.

Lemma all_indicators (l : list Element) :
  (fix all (l : list Element) : nat :=
     match l with
     | [] => 0
     | x :: rest => indicators x + all rest
     end) l = indicators_of_all l.
Proof. induction l as [|x rest IH]; simpl; [reflexivity | rewrite IH; reflexivity]. Qed.

Lemma all_leaves (l : list Element) :
  (fix all (l : list Element) : list Element :=
     match l with
     | [] => []
     | x :: rest => (leaves x ++ all rest)%list
     end) l = leaves_of_all l.
Proof. induction l as [|x rest IH]; simpl; [reflexivity | rewrite IH; reflexivity]. Qed.

(** The entries hold no scroll view and no indicator, and read the texts
    of the predictions in the order of the list. *)
Lemma spec_entries_shown (ps : list Prediction) (start : nat) :
  scrolled_of_all (spec_entries start ps) = []
  /\ indicators_of_all (spec_entries start ps) = 0
  /\ leaves_of_all (spec_entries start ps) = entries_texts ps.
Proof.
  revert start. induction ps as [|p rest IH]; intros start; simpl.
  - repeat split.
  - destruct (IH (S start)) as (H1 & H2 & H3). rewrite H1, H2, H3. repeat split.
Qed.

(** The screen adds nothing that scrolls and no indicator to its status
    area. *)
Lemma screen_shown (st : State) (area : Element) :
  scrolled (screen st area) = scrolled area
  /\ indicators (screen st area) = indicators area.
Proof.
  unfold screen. simpl.
  destruct (imageUri st) as [[|c u]|]; simpl; rewrite app_nil_r, Nat.add_0_r; split; reflexivity.
Qed.

Lemma card_shown (entries : list Element) :
  let card := View "predictionsCard"
                [Text "predictionsTitle" [Literal "Resultados del Análisis"];
                 ScrollView "predictionsContainer" entries] in
  scrolled card = ("predictionsContainer", entries) :: scrolled_of_all entries
  /\ indicators card = indicators_of_all entries.
Proof.
  simpl. rewrite all_scrolled, all_indicators, app_nil_r, Nat.add_0_r. split; reflexivity.
Qed.

(** C5. When [isLoading] is false and the stored predictions are a list
    that is not empty, the tree the component returns holds one scroll
    view and no loading indicator, and the scroll view holds one entry per
    prediction, in the order of the list: the entry at [i] shows the name
    of the prediction at [i] and its [probability * 100] to two decimals
    followed by "%", and the entries read nothing else. *)
Theorem results_list_rendered (render : State) (ps : list Prediction) :
  isLoading render = false ->
  as_Predictions (predictions render) = Some ps ->
  ps <> [] ->
  exists tree entries,
    App render = Normal tree
    /\ tree = screen render
                (View "predictionsCard"
                   [Text "predictionsTitle" [Literal "Resultados del Análisis"];
                    ScrollView "predictionsContainer" entries])
    /\ scrolled tree = [("predictionsContainer", entries)]
    /\ indicators tree = 0
    /\ List.length entries = List.length ps
    /\ leaves_of_all entries = entries_texts ps
    /\ forall i p,
         nth_error ps i = Some p ->
         nth_error entries i
         = Some (Keyed i
                   (View "predictionItem"
                      [View "predictionContent"
                         [Text "predictionName" [Embedded (VString (class_name p))];
                          Text "predictionProb"
                            [Embedded (VString (toFixed (mul (probability p) (of_Z 100)) 2));
                             Literal "%"]]])).
Proof.
  intros Hl Hps Hne.
  destruct (spec_entries_shown ps 0) as (Hs & Hi & Ht).
  destruct (card_shown (spec_entries 0 ps)) as (Hcs & Hci).
  eexists. exists (spec_entries 0 ps).
  split; [ | split; [reflexivity | ] ].
  - unfold App, results. rewrite Hl.
    destruct (predictions render) as [| | | | |elems|]; try discriminate.
    simpl in Hps. unfold length_gt_0.
    destruct elems as [|e rest]; [ simpl in Hps; congruence | ].
    cbn [List.length Nat.eqb negb cbind].
    rewrite (items_of_list _ _ 0 Hps). reflexivity.
  - destruct (screen_shown render
                (View "predictionsCard"
                   [Text "predictionsTitle" [Literal "Resultados del Análisis"];
                    ScrollView "predictionsContainer" (spec_entries 0 ps)])) as (H1 & H2).
    rewrite H1, H2, Hcs, Hci, Hs, Hi.
    split; [reflexivity | split; [reflexivity | ]].
    split; [apply spec_entries_length | ].
    split; [exact Ht | ].
    intros i p H. apply (spec_entries_nth ps 0 i p H).
Qed.

(** With [isLoading] false and [undefined] for predictions the component
    does not render: reading [predictions.length] throws. *)
Lemma undefined_predictions_break_render (render : State) :
  isLoading render = false ->
  predictions render = VUndefined ->
  App render = Abrupt TypeError.
Proof. intros Hl Hp. unfold App, results. rewrite Hl, Hp. reflexivity. Qed.

End Results.

(** ** One flow on the event loop *)

Section Alone.
Context {rt : Runtime}.
Variable env : Env.

(** A flow that is alone on the event loop goes through the events of its
    run: up to its first [await] they are the ones [advance] gives, and
    once the awaited call has settled the rest is the run of what the flow
    resumes with. *)
Lemma run_from_advance (p : Prog unit) (st : State) (happened : list Event) :
  match advance p st happened with
  | (st', happened', None) =>
      happened' = (happened ++ events (run env p st))%list
      /\ st' = final (run env p st)
  | (st', happened', Some flow) =>
      let o := settle env _ (awaited flow) in
      (happened ++ events (run env p st))%list
      = (happened' ++ Finished (awaited flow) o :: events (run env (resume flow o) st'))%list
      /\ final (run env p st) = final (run env (resume flow o) st')
  end.
Proof.
  revert st happened.
  induction p as [a | e | a k IH | X c k IH]; intros st happened; cbn.
  - split; [ symmetry; apply app_nil_r | reflexivity ].
  - split; [ symmetry; apply app_nil_r | reflexivity ].
  - specialize (IH (update a st) (happened ++ [Did a])%list).
    destruct (advance k (update a st) (happened ++ [Did a])%list) as [[st' happened'] [flow|]];
      unfold events in *; cbn in *; rewrite <- app_assoc in IH; exact IH.
  - unfold events. cbn. rewrite <- app_assoc. split; reflexivity.
Qed.

End Alone.

(* ================================================================== *)
(** * Runs on concrete inputs *)
(* ================================================================== *)

#[local] Existing Instance engine.

(** C1 as stated fails: after a 500 response whose body is a JSON object
    without [predictions], the attempt ends with the alert and with the
    stored predictions replaced by [undefined], not the ones from before. *)
Lemma server_error_replaces_predictions :
  non_2xx failing seen snapshot
  /\ alerts (events (run failing (sendImageToServer seen snapshot) seen)) = [generic_alert]
  /\ predictions (final (run failing (sendImageToServer seen snapshot) seen)) = VUndefined
  /\ predictions seen = VArray [encode gato].
Proof.
  split; [ exists error_500; split; reflexivity | ].
  conjuncts; vm_compute; reflexivity.
Qed.

Lemma unreachable_server_keeps_predictions :
  fetch_rejects unreachable seen snapshot
  /\ isLoading (final (run unreachable (sendImageToServer seen snapshot) seen)) = false
  /\ alerts (events (run unreachable (sendImageToServer seen snapshot) seen)) = [generic_alert]
  /\ predictions (final (run unreachable (sendImageToServer seen snapshot) seen))
     = VArray [encode gato].
Proof.
  assert (H : fetch_rejects unreachable seen snapshot) by (exists NetworkError; reflexivity).
  split; [exact H | ].
  exact (proj1 (failed_upload_keeps_predictions unreachable seen seen snapshot) (or_introl H)).
Defined.

(** C2 as stated fails: in a successful flow there is a moment at which
    the speech engine has been called, the request is over, and
    [isLoading] is still true. *)
Lemma loading_outlasts_the_request :
  exists m,
    In m (moments fresh (run answering (takePhoto fresh) fresh))
    /\ bodies (past m) = [VObject [("predictions", VArray [encode gato])]]
    /\ utterances (past m) = [("gato con 93.21% de probabilidad", speech_options)]
    /\ in_flight (past m) = false
    /\ isLoading (now m) = true.
Proof.
  eexists. split.
  - unfold moments. cbn. do 12 right. left. reflexivity.
  - conjuncts; vm_compute; reflexivity.
Qed.

Lemma loading_spans_the_upload_answering :
  isLoading fresh = false
  /\ loading_spans_upload fresh (run answering (sendImageToServer fresh snapshot) fresh)
  /\ loading_spans_upload fresh (run answering (takePhoto fresh) fresh).
Proof.
  split; [reflexivity | ].
  exact (loading_spans_the_upload answering fresh fresh snapshot eq_refl).
Defined.

Lemma speech_announces_gato :
  settle answering _ (the_fetch fresh snapshot) = Fulfilled ok_200
  /\ settle answering _ (Response_json ok_200)
     = Fulfilled (VObject [("predictions", VArray [encode gato])])
  /\ as_Predictions (VArray [encode gato]) = Some [gato]
  /\ utterances (events (run answering (sendImageToServer fresh snapshot) fresh))
     = [("gato con 93.21% de probabilidad", speech_options)].
Proof.
  do 3 (split; [reflexivity | ]).
  exact (speech_announces_predictions answering fresh fresh snapshot ok_200
           (VObject [("predictions", VArray [encode gato])]) (VArray [encode gato]) [gato]
           eq_refl eq_refl eq_refl eq_refl (not_eq_sym (@nil_cons _ gato []))).
Defined.

Lemma results_list_shows_gato :
  isLoading seen = false
  /\ as_Predictions (predictions seen) = Some [gato]
  /\ exists tree entries,
       App seen = Normal tree
       /\ tree = screen seen
                   (View "predictionsCard"
                      [Text "predictionsTitle" [Literal "Resultados del Análisis"];
                       ScrollView "predictionsContainer" entries])
       /\ scrolled tree = [("predictionsContainer", entries)]
       /\ indicators tree = 0
       /\ List.length entries = 1
       /\ leaves_of_all entries
          = [Embedded (VString "gato"); Embedded (VString "93.21"); Literal "%"]
       /\ forall i p,
            nth_error [gato] i = Some p ->
            nth_error entries i
            = Some (Keyed i
                      (View "predictionItem"
                         [View "predictionContent"
                            [Text "predictionName" [Embedded (VString (class_name p))];
                             Text "predictionProb"
                               [Embedded (VString (toFixed (mul (probability p) (of_Z 100)) 2));
                                Literal "%"]]])).
Proof.
  split; [reflexivity | split; [reflexivity | ]].
  exact (results_list_rendered seen [gato] eq_refl eq_refl (not_eq_sym (@nil_cons _ gato []))).
Defined.

(** What the entry of [gato] shows. *)
Example gato_percentage : percentage gato = "93.21".
Proof. reflexivity. Qed.

(** C7 as stated fails: a capture is followed by a 500 response whose
    body is a JSON object without [predictions], and the predictions from
    before are replaced by [undefined]. *)
Lemma error_response_replaces_predictions :
  settle failing _ (the_fetch seen snapshot) = Fulfilled error_500
  /\ response_ok error_500 = false
  /\ predictions seen = VArray [encode gato]
  /\ stores (events (run failing (takePhoto seen) seen)) = [VUndefined]
  /\ predictions (final (run failing (takePhoto seen) seen)) = VUndefined.
Proof. conjuncts; vm_compute; reflexivity. Qed.

Lemma capture_keeps_gato_until_response :
  status {| status := granted |} = granted
  /\ canceled {| canceled := false; assets := Some [{| uri := snapshot |}] |} = false
  /\ In {| event := Did (setIsLoading true);
           after := {| imageUri := Some snapshot;
                       predictions := VArray [encode gato];
                       isLoading := true;
                       serverIP := "192.168.1.5" |} |}
        (trace (run answering (takePhoto seen) seen))
  /\ Forall (fun m => bodies (past m) = [] -> predictions (now m) = predictions seen)
       (moments seen (run answering (takePhoto seen) seen))
  /\ predictions (final (run answering (takePhoto seen) seen))
     = match bodies (events (run answering (takePhoto seen) seen)) with
       | [data] =>
           match Get data "predictions" with
           | Normal v => v
           | Abrupt _ => predictions seen
           end
       | _ => predictions seen
       end.
Proof.
  split; [reflexivity | split; [reflexivity | ]].
  exact (capture_keeps_predictions_until_response answering seen seen
           {| status := granted |}
           {| canceled := false; assets := Some [{| uri := snapshot |}] |} snapshot
           eq_refl eq_refl eq_refl eq_refl eq_refl).
Defined.

Lemma cancelled_capture_changes_nothing_seen :
  status {| status := granted |} = granted
  /\ canceled {| canceled := true; assets := None |} = true
  /\ (imageUri (final (run cancelling (takePhoto seen) seen)) = imageUri seen
      /\ predictions (final (run cancelling (takePhoto seen) seen)) = predictions seen
      /\ isLoading (final (run cancelling (takePhoto seen) seen)) = isLoading seen
      /\ serverIP (final (run cancelling (takePhoto seen) seen)) = serverIP seen)
  /\ final (run cancelling (takePhoto seen) seen) = seen
  /\ Forall (fun m => now m = seen) (moments seen (run cancelling (takePhoto seen) seen))
  /\ requests (events (run cancelling (takePhoto seen) seen)) = []
  /\ alerts (events (run cancelling (takePhoto seen) seen)) = []
  /\ logged (events (run cancelling (takePhoto seen) seen)) = []
  /\ completion (run cancelling (takePhoto seen) seen) = Normal tt.
Proof.
  split; [reflexivity | split; [reflexivity | ]].
  exact (cancelled_capture_changes_nothing cancelling seen seen
           {| status := granted |} {| canceled := true; assets := None |}
           eq_refl eq_refl eq_refl eq_refl).
Defined.

Lemma denied_permission_alerts_only_seen :
  status {| status := denied |} <> granted
  /\ events (run refusing (takePhoto seen) seen)
     = [Started the_permission_request;
        Finished the_permission_request (Fulfilled {| status := denied |});
        Did (alert permission_alert)]
  /\ alerts (events (run refusing (takePhoto seen) seen)) = [permission_alert]
  /\ requests (events (run refusing (takePhoto seen) seen)) = []
  /\ began_upload (events (run refusing (takePhoto seen) seen)) = false
  /\ Forall (fun m => now m = seen) (moments seen (run refusing (takePhoto seen) seen))
  /\ final (run refusing (takePhoto seen) seen) = seen.
Proof.
  assert (H : status {| status := denied |} <> granted) by discriminate.
  split; [exact H | ].
  exact (denied_permission_alerts_only refusing seen seen {| status := denied |} eq_refl H).
Defined.

(** C10 as stated fails: the body [null] parses as JSON, and after it
    nothing has been stored: the predictions are the ones from before. *)
Lemma null_body_stores_nothing :
  settle answering_null _ (the_fetch seen snapshot) = Fulfilled ok_200
  /\ settle answering_null _ (Response_json ok_200) = Fulfilled VNull
  /\ stores (events (run answering_null (sendImageToServer seen snapshot) seen)) = []
  /\ predictions (final (run answering_null (sendImageToServer seen snapshot) seen))
     = VArray [encode gato]
  /\ alerts (events (run answering_null (sendImageToServer seen snapshot) seen))
     = [generic_alert].
Proof. conjuncts; vm_compute; reflexivity. Qed.

Lemma error_body_overwrites_predictions :
  settle failing _ (the_fetch seen snapshot) = Fulfilled error_500
  /\ settle failing _ (Response_json error_500)
     = Fulfilled (VObject [("detail", VString "Internal Server Error")])
  /\ (exists v,
        Get (VObject [("detail", VString "Internal Server Error")]) "predictions" = Normal v
        /\ (exists before later,
              events (run failing (sendImageToServer seen snapshot) seen)
              = (before ++ Did (setPredictions v) :: later)%list
              /\ utterances before = [] /\ alerts before = [] /\ stores before = []
              /\ stores later = [])
        /\ predictions (final (run failing (sendImageToServer seen snapshot) seen)) = v
        /\ (v = VUndefined ->
              alerts (events (run failing (sendImageToServer seen snapshot) seen)) = [generic_alert]
              /\ utterances (events (run failing (sendImageToServer seen snapshot) seen)) = [])).
Proof.
  split; [reflexivity | split; [reflexivity | ]].
  refine (proj1 (parsed_body_overwrites_predictions failing seen seen snapshot error_500
                   (VObject [("detail", VString "Internal Server Error")]) eq_refl eq_refl)
            _ _); discriminate.
Defined.

(** ** Flows that overlap *)

(** The button stays enabled during loading. When a second capture is made
    before the first upload has come to its end, the end of the first
    clears [isLoading] while the request of the second is in flight. *)
Lemma overlapping_upload_clears_loading :
  let ss :=
    play [Press; Settle 0 (Permission allowed); Settle 0 (Capture captured);
          Press; Settle 1 (Permission allowed); Settle 1 (Capture captured);
          Settle 0 (Reply (Fulfilled ok_200));
          Settle 0 (Body (Fulfilled (VObject [("predictions", VArray [encode gato])])));
          Settle 0 (Spoken (Fulfilled tt))]
      (opening fresh) in
  isLoading (store ss) = false
  /\ awaited_requests (flows ss) = [("http://192.168.1.5:8720/predict/", predict_init snapshot)].
Proof. vm_compute. split; reflexivity. Qed.

(** C6 as stated fails: the address is edited while the permission is
    being requested; when the upload is triggered the state holds the
    edited address, and the request goes to the address of the render in
    which the button was pressed. *)
Lemma request_keeps_address_of_press :
  let ss :=
    play [Press; Edit "10.0.0.7"; Settle 0 (Permission allowed); Settle 0 (Capture captured)]
      (opening fresh) in
  serverIP (store ss) = "10.0.0.7"
  /\ awaited_requests (flows ss) = [("http://192.168.1.5:8720/predict/", predict_init snapshot)].
Proof. vm_compute. split; reflexivity. Qed.

(** ** The screen after an error response *)

(** After the 500 response the state holds [undefined] for predictions
    and [isLoading] is false: the next render throws. *)
Lemma render_after_error_response :
  App (final (run failing (sendImageToServer seen snapshot) seen)) = Abrupt TypeError.
Proof. vm_compute. reflexivity. Qed.

(* ================================================================== *)
(** * Further properties of the upload *)
(* ================================================================== *)

Section ValueInduction.
Variable P : Value -> Prop.
Hypothesis P_undefined : P VUndefined.
Hypothesis P_null : P VNull.
Hypothesis P_bool : forall b, P (VBool b).
Hypothesis P_number : forall x, P (VNumber x).
Hypothesis P_string : forall s, P (VString s).
Hypothesis P_array : forall elems, Forall P elems -> P (VArray elems).
Hypothesis P_object : forall props, Forall (fun kv => P (snd kv)) props -> P (VObject props).

(** Induction on a value, with the hypothesis for every element of an
    array and every property of an object. *)
Fixpoint Value_nested_ind (v : Value) : P v :=
  match v with
  | VUndefined => P_undefined
  | VNull => P_null
  | VBool b => P_bool b
  | VNumber x => P_number x
  | VString s => P_string s
  | VArray elems =>
      P_array elems
        ((fix all (l : list Value) : Forall P l :=
            match l with
            | [] => Forall_nil P
            | x :: rest => Forall_cons x (Value_nested_ind x) (all rest)
            end) elems)
  | VObject props =>
      P_object props
        ((fix all (l : list (string * Value)) : Forall (fun kv => P (snd kv)) l :=
            match l with
            | [] => Forall_nil _
            | kv :: rest => Forall_cons kv (Value_nested_ind (snd kv)) (all rest)
            end) props)
  end.

End ValueInduction.

Section Throwing.
Context {rt : Runtime}.

(** Whatever the conversions throw is a [TypeError]. *)
Lemma ToString_error (v : Value) (e : Error) : ToString v = Abrupt e -> e = TypeError.
Proof.
  revert e. induction v as [| | [|] | x | s | elems IH | props _] using Value_nested_ind;
    intros e; simpl; try discriminate.
  - induction IH as [|x rest Hx _ IHrest]; [discriminate | ].
    assert (Hhead : forall e',
               match x with
               | VUndefined | VNull => Normal ""
               | _ => ToString x
               end = Abrupt e' -> e' = TypeError).
    { intros e'. destruct x; try discriminate; apply Hx. }
    destruct (match x with
              | VUndefined | VNull => Normal ""
              | _ => ToString x
              end) as [str|err] eqn:Hc.
    + simpl. destruct rest as [|y rest']; [discriminate | ].
      match goal with
      | |- context [cbind ?c _] => destruct c as [r|err] eqn:Hr; simpl
      end; [discriminate | ].
      intros [= <-]. apply IHrest. reflexivity.
    + simpl. intros [= <-]. apply Hhead. reflexivity.
  - destruct (own_property "toString" props); [intros [= <-]; reflexivity | discriminate].
Qed.

Lemma ToNumber_error (v : Value) (e : Error) : ToNumber v = Abrupt e -> e = TypeError.
Proof.
  unfold ToNumber. destruct v as [| | [|] | x | s | elems | props]; try discriminate.
  - destruct (ToString (VArray elems)) eqn:H; cbn [cbind]; [discriminate | ].
    intros [= <-]. exact (ToString_error _ _ H).
  - destruct (ToString (VObject props)) eqn:H; cbn [cbind]; [discriminate | ].
    intros [= <-]. exact (ToString_error _ _ H).
Qed.

Lemma Get_error (v : Value) (p : string) (e : Error) : Get v p = Abrupt e -> e = TypeError.
Proof. unfold Get. destruct v; try discriminate; intros [= <-]; reflexivity. Qed.

End Throwing.

Section Elements.
Context {rt : Runtime}.

Lemma phrase_error (v : Value) (e : Error) : phrase v = Abrupt e -> e = TypeError.
Proof.
  unfold phrase.
  destruct (Get v "class_name") as [name|e1] eqn:H1; cbn [cbind];
    [ | intros [= <-]; exact (Get_error _ _ _ H1)].
  destruct (ToString name) as [str|e2] eqn:H2; cbn [cbind];
    [ | intros [= <-]; exact (ToString_error _ _ H2)].
  destruct (Get v "probability") as [p|e3] eqn:H3; cbn [cbind];
    [ | intros [= <-]; exact (Get_error _ _ _ H3)].
  destruct (ToNumber p) as [x|e4] eqn:H4; cbn [cbind];
    [ discriminate | intros [= <-]; exact (ToNumber_error _ _ H4)].
Qed.

Lemma item_error (v : Value) (index : nat) (e : Error) :
  prediction_item v index = Abrupt e -> e = TypeError.
Proof.
  unfold prediction_item.
  destruct (Get v "class_name") as [name|e1] eqn:H1; cbn [cbind];
    [ | intros [= <-]; exact (Get_error _ _ _ H1)].
  destruct (Get v "probability") as [p|e3] eqn:H3; cbn [cbind];
    [ | intros [= <-]; exact (Get_error _ _ _ H3)].
  destruct (ToNumber p) as [x|e4] eqn:H4; cbn [cbind];
    [ discriminate | intros [= <-]; exact (ToNumber_error _ _ H4)].
Qed.

Lemma phrases_error (elems : list Value) (e : Error) :
  map_elems phrase elems = Abrupt e -> e = TypeError.
Proof.
  induction elems as [|x rest IH]; simpl; [discriminate | ].
  destruct (phrase x) as [t|e1] eqn:H1; cbn [cbind];
    [ | intros [= <-]; exact (phrase_error _ _ H1)].
  destruct (map_elems phrase rest) as [ts|e2]; cbn [cbind]; [discriminate | ].
  intros [= <-]. apply IH. reflexivity.
Qed.

Lemma items_error (elems : list Value) (index : nat) (e : Error) :
  map_indexed prediction_item index elems = Abrupt e -> e = TypeError.
Proof.
  revert index. induction elems as [|x rest IH]; intros index; simpl; [discriminate | ].
  destruct (prediction_item x index) as [t|e1] eqn:H1; cbn [cbind];
    [ | intros [= <-]; exact (item_error _ _ _ H1)].
  destruct (map_indexed prediction_item (S index) rest) as [ts|e2] eqn:H2; cbn [cbind];
    [discriminate | ].
  intros [= <-]. exact (IH _ H2).
Qed.

(** A [null] among the elements makes both the sentence and the list of
    results throw. *)
Lemma phrases_with_null (elems : list Value) :
  In VNull elems -> map_elems phrase elems = Abrupt TypeError.
Proof.
  intros Hin. destruct (map_elems phrase elems) as [texts|e] eqn:H.
  - exfalso. revert texts H. induction elems as [|x rest IH]; intros texts; simpl.
    + destruct Hin.
    + destruct Hin as [-> | Hin]; [discriminate | ].
      destruct (phrase x); cbn [cbind]; [ | discriminate].
      destruct (map_elems phrase rest) as [ts|]; cbn [cbind]; [ | discriminate].
      intros _. exact (IH Hin ts eq_refl).
  - f_equal. exact (phrases_error _ _ H).
Qed.

Lemma items_with_null (elems : list Value) (index : nat) :
  In VNull elems -> map_indexed prediction_item index elems = Abrupt TypeError.
Proof.
  intros Hin. destruct (map_indexed prediction_item index elems) as [items|e] eqn:H.
  - exfalso. revert index items H.
    induction elems as [|x rest IH]; intros index items; simpl.
    + destruct Hin.
    + destruct Hin as [-> | Hin]; [discriminate | ].
      destruct (prediction_item x index); cbn [cbind]; [ | discriminate].
      destruct (map_indexed prediction_item (S index) rest) as [ts|] eqn:H2; cbn [cbind];
        [ | discriminate].
      intros _. exact (IH Hin (S index) ts H2).
  - f_equal. exact (items_error _ _ _ H).
Qed.

(** The component when nothing is loading. *)
Lemma App_idle (st : State) :
  isLoading st = false ->
  App st = match results st with
           | Normal area => Normal (screen st area)
           | Abrupt e => Abrupt e
           end.
Proof. intros H. unfold App. rewrite H. destruct (results st); reflexivity. Qed.

Lemma results_of_array (st : State) (elems : list Value) :
  predictions st = VArray elems ->
  results st
  = match elems with
    | [] => Normal (Embedded (VBool false))
    | _ :: _ =>
        match map_indexed prediction_item 0 elems with
        | Normal items =>
            Normal (View "predictionsCard"
                      [Text "predictionsTitle" [Literal "Resultados del Análisis"];
                       ScrollView "predictionsContainer" items])
        | Abrupt e => Abrupt e
        end
    end.
Proof.
  intros H. unfold results. rewrite H. unfold length_gt_0.
  destruct elems as [|x rest]; [reflexivity | ].
  cbn [List.length Nat.eqb negb cbind].
  destruct (map_indexed prediction_item 0 (x :: rest)); reflexivity.
Qed.

End Elements.

Section UploadOutcomes.
Context {rt : Runtime}.
Variables (env : Env) (render st : State) (uri : string).

Let r := run env (sendImageToServer render uri) st.

(** The state an upload ends in: only [predictions] can differ from the
    state it started in, apart from [isLoading], which is false. *)
Lemma upload_final_state :
  final r = {| imageUri := imageUri st;
               predictions := predictions (final r);
               isLoading := false;
               serverIP := serverIP st |}.
Proof. subst r. upload_cases env; reflexivity. Qed.

(** X1. When the speech engine fails, the failure is logged under
    "Error al reproducir audio:" and nothing else: no alert is shown, the
    predictions of the response are stored, the loading flag is cleared
    and the promise of the upload is fulfilled. *)
Theorem speech_failure_is_silent
    (response : Response) (data v : Value) (text : string) (error : Error) :
  settle env _ (the_fetch render uri) = Fulfilled response ->
  settle env _ (Response_json response) = Fulfilled data ->
  Get data "predictions" = Normal v ->
  textToSpeak v = Normal text ->
  settle env _ (Speech_speak text speech_options) = Rejected error ->
  alerts (events r) = []
  /\ logged (events r) = [("Error al reproducir audio:", error)]
  /\ utterances (events r) = [(text, speech_options)]
  /\ predictions (final r) = v
  /\ isLoading (final r) = false
  /\ completion r = Normal tt.
Proof.
  unfold the_fetch, predict_init, predict_url. intros Hf Hj Hv Ht Hs. cbn in Hf.
  subst r. unfold events, sendImageToServer, speakPredictions. cbn.
  rewrite Hf. cbn. rewrite Hj. cbn. rewrite Hv. cbn. rewrite Ht. cbn. rewrite Hs. cbn.
  repeat split.
Qed.

(** X2. An upload either calls the speech engine, once, with language
    "es", pitch 1 and rate 1.2, and shows no alert, or shows the generic
    alert, once, and says nothing; it stores predictions at most once, and
    never touches the image or the address. *)
Theorem upload_speaks_or_alerts :
  ((exists text,
      utterances (events r)
      = [(text, {| language := "es"; pitch := of_Z 1; rate := ratio 12 10 |})]
      /\ alerts (events r) = [])
   \/ (utterances (events r) = [] /\ alerts (events r) = ["Error al procesar la imagen"]))
  /\ (List.length (stores (events r)) <= 1)%nat
  /\ imageUri (final r) = imageUri st
  /\ serverIP (final r) = serverIP st.
Proof.
  subst r. unfold events.
  upload_cases env;
    (split; [ first [ left; eexists; split; reflexivity | right; split; reflexivity ]
            | split; [ cbn; lia | split; reflexivity ] ]).
Qed.

(** X4. When the body is a value other than [null] without a
    [predictions] property, the alert is shown, the stored predictions are
    [undefined], and the next render of the component throws. *)
Theorem missing_predictions_break_render (response : Response) (data : Value) :
  settle env _ (the_fetch render uri) = Fulfilled response ->
  settle env _ (Response_json response) = Fulfilled data ->
  Get data "predictions" = Normal VUndefined ->
  alerts (events r) = [generic_alert]
  /\ predictions (final r) = VUndefined
  /\ isLoading (final r) = false
  /\ App (final r) = Abrupt TypeError.
Proof.
  unfold the_fetch, predict_init, predict_url. intros Hf Hj Hv. cbn in Hf.
  rewrite upload_final_state, App_idle by reflexivity.
  subst r. unfold events, sendImageToServer, speakPredictions. cbn.
  rewrite Hf. cbn. rewrite Hj. cbn. rewrite Hv. cbn.
  repeat split.
Qed.

(** X5. When the list of the response holds [null], the list is stored,
    nothing is spoken, the alert is shown, and the next render of the
    component throws. *)
Theorem null_prediction_breaks_speech_and_render
    (response : Response) (data : Value) (elems : list Value) :
  settle env _ (the_fetch render uri) = Fulfilled response ->
  settle env _ (Response_json response) = Fulfilled data ->
  Get data "predictions" = Normal (VArray elems) ->
  In VNull elems ->
  predictions (final r) = VArray elems
  /\ utterances (events r) = []
  /\ alerts (events r) = [generic_alert]
  /\ App (final r) = Abrupt TypeError.
Proof.
  unfold the_fetch, predict_init, predict_url. intros Hf Hj Hv Hin. cbn in Hf.
  assert (Ht : textToSpeak (VArray elems) = Abrupt TypeError).
  { unfold textToSpeak, Array_map. rewrite (phrases_with_null _ Hin). reflexivity. }
  assert (H : predictions (final r) = VArray elems
              /\ utterances (events r) = []
              /\ alerts (events r) = [generic_alert]).
  { subst r. unfold events, sendImageToServer, speakPredictions. cbn.
    rewrite Hf. cbn. rewrite Hj. cbn. rewrite Hv. cbn. rewrite Ht. cbn.
    repeat split. }
  destruct H as (Hp & Hu & Ha). repeat split; try assumption.
  rewrite App_idle by apply upload_final_loading.
  rewrite (results_of_array _ _ Hp).
  destruct elems as [|x rest]; [destruct Hin | ].
  rewrite (items_with_null _ 0 Hin). reflexivity.
Qed.


End UploadOutcomes.

(* ================================================================== *)
(** * Further properties of the capture *)
(* ================================================================== *)

Section CaptureOutcomes.
Context {rt : Runtime}.
Variables (env : Env) (render st : State).

Let r := run env (takePhoto render) st.

(** X7. After a capture that was not cancelled, the image of the capture
    is in the state from before the upload begins until the end of the
    flow, whatever becomes of the upload, and the address is untouched. *)
Theorem captured_image_is_kept
    (permission : PermissionResponse) (result : ImagePickerResult) (photo : string) :
  settle env _ the_permission_request = Fulfilled permission ->
  status permission = granted ->
  settle env _ the_camera = Fulfilled result ->
  canceled result = false ->
  first_asset_uri result = Normal photo ->
  imageUri (final r) = Some photo
  /\ Forall (fun m => began_upload (past m) = true -> imageUri (now m) = Some photo)
       (moments st r)
  /\ began_upload (events r) = true
  /\ serverIP (final r) = serverIP st.
Proof.
  unfold the_permission_request, the_camera. intros Hp Hs Hc Hx Hu.
  subst r. unfold events, moments, takePhoto. cbn. rewrite Hp. cbn.
  rewrite Hs. cbn. rewrite Hc. cbn. rewrite Hx. cbn. rewrite Hu. cbn.
  upload_cases env;
    (split; [reflexivity | split; [ | split; reflexivity ]]);
    repeat (apply Forall_cons; [ cbn; first [reflexivity | discriminate] | ]);
    apply Forall_nil.
Qed.

(** X8. [takePhoto] catches nothing of its own: when the request for the
    permission or the camera rejects, the flow rejects with the same
    error, without an alert, a log entry, a request or a change of state. *)
Theorem camera_errors_are_uncaught (error : Error) :
  (settle env _ the_permission_request = Rejected error
   \/ exists permission,
        settle env _ the_permission_request = Fulfilled permission
        /\ status permission = granted
        /\ settle env _ the_camera = Rejected error) ->
  completion r = Abrupt error
  /\ final r = st
  /\ alerts (events r) = []
  /\ logged (events r) = []
  /\ requests (events r) = [].
Proof.
  unfold the_permission_request, the_camera.
  intros [Hp | (permission & Hp & Hs & Hc)];
    subst r; unfold events, takePhoto; cbn; rewrite Hp; cbn.
  - repeat split.
  - rewrite Hs. cbn. rewrite Hc. cbn. repeat split.
Qed.

(** X9. When the camera reports a capture that was not cancelled and has
    no first asset, reading [result.assets[0].uri] throws: the flow
    rejects with a [TypeError] before anything is set, alerted or sent. *)
Theorem capture_without_asset_throws
    (permission : PermissionResponse) (result : ImagePickerResult) (error : Error) :
  settle env _ the_permission_request = Fulfilled permission ->
  status permission = granted ->
  settle env _ the_camera = Fulfilled result ->
  canceled result = false ->
  first_asset_uri result = Abrupt error ->
  completion r = Abrupt TypeError
  /\ final r = st
  /\ alerts (events r) = []
  /\ requests (events r) = [].
Proof.
  unfold the_permission_request, the_camera. intros Hp Hs Hc Hx Hu.
  assert (error = TypeError) as ->.
  { unfold first_asset_uri in Hu. destruct (assets result) as [[|a l]|]; congruence. }
  subst r. unfold events, takePhoto. cbn. rewrite Hp. cbn.
  rewrite Hs. cbn. rewrite Hc. cbn. rewrite Hx. cbn. rewrite Hu. cbn.
  repeat split.
Qed.

(** X10. A flow sends one request or none, and shows at most one alert.
    The request is sent exactly when the permission is granted and the
    capture is not cancelled and has a first asset, and its file is that
    asset. *)
Theorem flow_sends_one_request_or_none :
  (forall photo,
     requests (events r) = [(predict_url render, predict_init photo)] <->
     exists permission result,
       settle env _ the_permission_request = Fulfilled permission
       /\ status permission = granted
       /\ settle env _ the_camera = Fulfilled result
       /\ canceled result = false
       /\ first_asset_uri result = Normal photo)
  /\ (requests (events r) = []
      \/ exists photo, requests (events r) = [(predict_url render, predict_init photo)])
  /\ (List.length (alerts (events r)) <= 1)%nat.
Proof.
  subst r. unfold events.
  capture_cases env;
    try (split; [ intros shot; split;
                  [ discriminate
                  | unfold the_permission_request, the_camera;
                    intros (permission & result & H1 & H2 & H3 & H4 & H5);
                    try (rewrite Hcam in H3; injection H3 as <-);
                    rewrite Hperm in H1; try discriminate H1;
                    injection H1 as <-; cbn in *; congruence ]
                | split; [ left; reflexivity | cbn; lia ] ]).
  upload_cases env;
    (split; [ intros shot; split;
              [ intros [= <-];
                exists {| status := granted |},
                       {| canceled := false; assets := Some ({| uri := photo |} :: more) |};
                repeat split; assumption
              | unfold the_permission_request, the_camera;
                intros (permission & result & H1 & H2 & H3 & H4 & H5);
                rewrite Hcam in H3; injection H3 as <-; cbn in H5;
                injection H5 as <-; reflexivity ]
            | split; [ right; eexists; reflexivity | cbn; lia ] ]).
Qed.

End CaptureOutcomes.

(* ================================================================== *)
(** * Further properties of the screen *)
(* ================================================================== *)

Section Screen.
Context {rt : Runtime}.

(** X11. A state whose predictions have the declared type always renders.
    While loading, the tree holds one loading indicator and no scroll view,
    whatever the list holds; otherwise it holds no indicator, and no scroll
    view for the empty list, and for any other list one scroll view with
    one entry per prediction, in the order of the list. *)
Theorem typed_state_renders (st : State) (ps : list Prediction) :
  as_Predictions (predictions st) = Some ps ->
  exists tree,
    App st = Normal tree
    /\ tree = screen st
                (if isLoading st then loading_view
                 else match ps with
                      | [] => Embedded (VBool false)
                      | _ :: _ =>
                          View "predictionsCard"
                            [Text "predictionsTitle" [Literal "Resultados del Análisis"];
                             ScrollView "predictionsContainer" (spec_entries 0 ps)]
                      end)
    /\ indicators tree = (if isLoading st then 1 else 0)
    /\ scrolled tree
       = (if isLoading st then []
          else match ps with
               | [] => []
               | _ :: _ => [("predictionsContainer", spec_entries 0 ps)]
               end)
    /\ leaves_of_all (spec_entries 0 ps) = entries_texts ps.
Proof.
  intros Hps. eexists. split; [ | split; [reflexivity | ] ].
  - destruct (isLoading st) eqn:Hl.
    + unfold App. rewrite Hl. reflexivity.
    + rewrite (App_idle st Hl).
      destruct (predictions st) as [| | | | |elems|] eqn:Hp; try discriminate.
      simpl in Hps. rewrite (results_of_array st elems Hp).
      destruct elems as [|x rest].
      * simpl in Hps. injection Hps as <-. reflexivity.
      * rewrite (items_of_list _ _ 0 Hps).
        destruct ps as [|p ps']; [ | reflexivity].
        simpl in Hps. destruct (as_Prediction x); try discriminate.
        destruct (as_list rest); discriminate.
  - destruct (spec_entries_shown ps 0) as (Hs & Hi & Ht).
    destruct (card_shown (spec_entries 0 ps)) as (Hcs & Hci).
    match goal with
    | |- indicators (screen st ?area) = _ /\ _ =>
        destruct (screen_shown st area) as (H1 & H2); rewrite H1, H2
    end.
    destruct (isLoading st); [repeat split; exact Ht | ].
    destruct ps as [|p ps']; [repeat split | ].
    rewrite Hcs, Hci, Hs, Hi. repeat split. exact Ht.
Qed.

Lemma all_styles (l : list Element) :
  (fix all (l : list Element) : list string :=
     match l with
     | [] => []
     | x :: rest => (style_names x ++ all rest)%list
     end) l = styles_of_all l.
Proof. induction l as [|x rest IH]; simpl; [reflexivity | rewrite IH; reflexivity]. Qed.

Lemma style_names_View (style : string) (children : list Element) :
  style_names (View style children) = style :: styles_of_all children.
Proof. simpl. rewrite all_styles. reflexivity. Qed.

Lemma style_names_ScrollView (style : string) (children : list Element) :
  style_names (ScrollView style children) = style :: styles_of_all children.
Proof. simpl. rewrite all_styles. reflexivity. Qed.

Lemma item_styles (v : Value) (index : nat) (item : Element) :
  prediction_item v index = Normal item ->
  forallb style_defined (style_names item) = true.
Proof.
  unfold prediction_item.
  destruct (Get v "class_name") as [name|]; cbn [cbind]; [ | discriminate].
  destruct (Get v "probability") as [p|]; cbn [cbind]; [ | discriminate].
  destruct (ToNumber p) as [x|]; cbn [cbind]; [ | discriminate].
  intros [= <-]. vm_compute. reflexivity.
Qed.

Lemma items_styles (elems : list Value) (index : nat) (items : list Element) :
  map_indexed prediction_item index elems = Normal items ->
  forallb style_defined (styles_of_all items) = true.
Proof.
  revert index items. induction elems as [|x rest IH]; intros index items; simpl.
  - intros [= <-]. reflexivity.
  - destruct (prediction_item x index) as [item|] eqn:Hitem; cbn [cbind]; [ | discriminate].
    destruct (map_indexed prediction_item (S index) rest) as [more|] eqn:Hmore; cbn [cbind];
      [ | discriminate].
    intros [= <-]. simpl. rewrite forallb_app.
    rewrite (item_styles _ _ _ Hitem), (IH _ _ Hmore). reflexivity.
Qed.

Lemma results_styles (st : State) (area : Element) :
  results st = Normal area -> forallb style_defined (style_names area) = true.
Proof.
  unfold results.
  destruct (length_gt_0 (predictions st)) as [[|]|]; cbn [cbind]; try discriminate.
  - destruct (predictions st) as [| | | | |elems|]; try discriminate.
    destruct (map_indexed prediction_item 0 elems) as [items|] eqn:Hitems; cbn [cbind];
      [ | discriminate].
    intros [= <-]. rewrite style_names_View.
    cbn [styles_of_all]. rewrite style_names_ScrollView.
    change (style_names (Text "predictionsTitle" [Literal "Resultados del Análisis"]))
      with ["predictionsTitle"].
    rewrite app_nil_r.
    change (forallb style_defined
              ("predictionsCard" :: ["predictionsTitle"]
               ++ "predictionsContainer" :: styles_of_all items)%list)
      with (style_defined "predictionsCard"
            && (style_defined "predictionsTitle"
                && (style_defined "predictionsContainer"
                    && forallb style_defined (styles_of_all items)))).
    rewrite (items_styles _ _ _ Hitems). vm_compute. reflexivity.
  - intros [= <-]. reflexivity.
Qed.

(** The styles of the screen are those of its fixed part, of the image
    card when there is one, and of the status area. *)
Lemma screen_styles (st : State) (area : Element) :
  forallb style_defined (style_names area) = true ->
  forallb style_defined (style_names (screen st area)) = true.
Proof.
  intros H. unfold screen. rewrite style_names_View.
  cbn [styles_of_all forallb]. rewrite !forallb_app, H.
  destruct (imageUri st) as [[|c u]|]; vm_compute; reflexivity.
Qed.

(** X12. Whatever the state, every style the component refers to in the
    tree it returns is defined in the style sheet. *)
Theorem styles_are_defined (st : State) (tree : Element) :
  App st = Normal tree -> forallb style_defined (style_names tree) = true.
Proof.
  unfold App. destruct (isLoading st).
  - cbn [cbind]. intros [= <-]. apply screen_styles. vm_compute. reflexivity.
  - destruct (results st) as [area|] eqn:Harea; cbn [cbind]; [ | discriminate].
    intros [= <-]. apply screen_styles. exact (results_styles st area Harea).
Qed.

Lemma all_press_handlers (l : list Element) :
  (fix all (l : list Element) : list (Prog unit) :=
     match l with
     | [] => []
     | x :: rest => (press_handlers x ++ all rest)%list
     end) l = press_handlers_of_all l.
Proof. induction l as [|x rest IH]; simpl; [reflexivity | rewrite IH; reflexivity]. Qed.

Lemma all_text_inputs (l : list Element) :
  (fix all (l : list Element) : list (string * (string -> Prog unit)) :=
     match l with
     | [] => []
     | x :: rest => (text_inputs x ++ all rest)%list
     end) l = text_inputs_of_all l.
Proof. induction l as [|x rest IH]; simpl; [reflexivity | rewrite IH; reflexivity]. Qed.

Lemma items_handlers (elems : list Value) (index : nat) (items : list Element) :
  map_indexed prediction_item index elems = Normal items ->
  press_handlers_of_all items = [] /\ text_inputs_of_all items = [].
Proof.
  revert index items. induction elems as [|x rest IH]; intros index items; simpl.
  - intros [= <-]. split; reflexivity.
  - unfold prediction_item at 1.
    destruct (Get x "class_name") as [name|]; cbn [cbind]; [ | discriminate].
    destruct (Get x "probability") as [p|]; cbn [cbind]; [ | discriminate].
    destruct (ToNumber p) as [y|]; cbn [cbind]; [ | discriminate].
    destruct (map_indexed prediction_item (S index) rest) as [more|] eqn:Hmore; cbn [cbind];
      [ | discriminate].
    intros [= <-]. destruct (IH _ _ Hmore) as [H1 H2].
    simpl. rewrite H1, H2. split; reflexivity.
Qed.

Lemma results_handlers (st : State) (area : Element) :
  results st = Normal area -> press_handlers area = [] /\ text_inputs area = [].
Proof.
  unfold results.
  destruct (length_gt_0 (predictions st)) as [[|]|]; cbn [cbind]; try discriminate.
  - destruct (predictions st) as [| | | | |elems|]; try discriminate.
    destruct (map_indexed prediction_item 0 elems) as [items|] eqn:Hitems; cbn [cbind];
      [ | discriminate].
    intros [= <-]. destruct (items_handlers _ _ _ Hitems) as [H1 H2].
    simpl. rewrite all_press_handlers, all_text_inputs, H1, H2. split; reflexivity.
  - intros [= <-]. split; reflexivity.
Qed.

(** X17. Whatever the state, loading or not, the tree the component
    returns has one touchable element, whose handler is the [takePhoto] of
    that render, and one text input, which shows the stored address and
    whose handler is [setServerIP]: the button is never disabled. *)
Theorem button_always_offers_capture (st : State) (tree : Element) :
  App st = Normal tree ->
  press_handlers tree = [takePhoto st]
  /\ text_inputs tree = [(serverIP st, fun text => call (setServerIP text))].
Proof.
  assert (H : forall area,
             press_handlers area = [] /\ text_inputs area = [] ->
             press_handlers (screen st area) = [takePhoto st]
             /\ text_inputs (screen st area)
                = [(serverIP st, fun text => call (setServerIP text))]).
  { intros area [H1 H2]. unfold screen. simpl.
    rewrite H1, H2. destruct (imageUri st) as [[|c u]|]; split; reflexivity. }
  unfold App. destruct (isLoading st).
  - cbn [cbind]. intros [= <-]. apply H. split; reflexivity.
  - destruct (results st) as [area|] eqn:Harea; cbn [cbind]; [ | discriminate].
    intros [= <-]. apply H. exact (results_handlers st area Harea).
Qed.

End Screen.

(* ================================================================== *)
(** * Further properties of flows that overlap *)
(* ================================================================== *)

Section Races.
Context {rt : Runtime}.
Variable st : State.

(** X13. An edit of the address made before the button is pressed
    reaches the request of that capture. *)
Theorem edit_before_press_reaches_request
    (ip photo : string) (more : list ImagePickerAsset) :
  let ss := play [Edit ip; Press; granting; Settle 0 (Capture (capture_of photo more))]
              (opening st) in
  awaited_requests (flows ss) = [("http://" ++ ip ++ ":8720/predict/", predict_init photo)]
  /\ serverIP (store ss) = ip
  /\ imageUri (store ss) = Some photo
  /\ isLoading (store ss) = true.
Proof. cbn. repeat split. Qed.

(** X14. An edit of the address made after the button was pressed, while
    the flow is suspended, does not reach the request: the flow sends it
    to the address of the render in which the button was pressed. *)
Theorem edit_after_press_misses_request
    (ip photo : string) (more : list ImagePickerAsset) :
  let ss := play [Press; Edit ip; granting; Settle 0 (Capture (capture_of photo more))]
              (opening st) in
  awaited_requests (flows ss)
  = [("http://" ++ serverIP st ++ ":8720/predict/", predict_init photo)]
  /\ serverIP (store ss) = ip.
Proof. cbn. repeat split. Qed.

(** X15. Of two uploads in flight, the one whose body is read last decides
    the stored predictions, also when it is the upload of the earlier
    capture, while the image is the one of the later capture. *)
Theorem last_response_wins
    (first second : string) (replyA replyB : Response) (dataA dataB vA vB : Value) :
  Get dataA "predictions" = Normal vA ->
  Get dataB "predictions" = Normal vB ->
  let ss := play (two_captures first second
                  ++ [Settle 1 (Reply (Fulfilled replyB)); Settle 1 (Body (Fulfilled dataB));
                      Settle 0 (Reply (Fulfilled replyA)); Settle 0 (Body (Fulfilled dataA))])
              (opening st) in
  predictions (store ss) = vA
  /\ imageUri (store ss) = Some second.
Proof.
  intros HA HB. unfold two_captures. cbn. rewrite HB. cbn.
  unfold speakPredictions.
  destruct (textToSpeak vB) as [textB|errorB]; cbn; rewrite HA; cbn;
    destruct (textToSpeak vA) as [textA|errorA]; cbn; split; reflexivity.
Qed.

(** X16. When a second capture is made while the first upload is in
    flight, the end of the first upload, however it ends, clears
    [isLoading] while the request of the second is still awaited. *)
Theorem end_of_first_upload_clears_loading
    (first second : string)
    (reply : Settled Response) (body : Settled Value) (speech : Settled unit) :
  let ss := play (two_captures first second
                  ++ [Settle 0 (Reply reply); Settle 0 (Body body); Settle 0 (Spoken speech)])
              (opening st) in
  isLoading (store ss) = false
  /\ awaited_requests (flows ss) = [(predict_url st, predict_init second)].
Proof.
  unfold two_captures. cbn.
  destruct reply as [response|error]; cbn; [ | split; reflexivity].
  destruct body as [data|error]; cbn; [ | split; reflexivity].
  destruct (Get data "predictions") as [v|error]; cbn; [ | split; reflexivity].
  unfold speakPredictions.
  destruct (textToSpeak v) as [text|error]; cbn; [ | split; reflexivity].
  destruct speech as [[]|error]; cbn; split; reflexivity.
Qed.

End Races.

(* ================================================================== *)
(** * Further runs on concrete inputs *)
(* ================================================================== *)

Lemma speech_failure_is_silent_mute :
  settle mute _ (the_fetch seen snapshot) = Fulfilled ok_200
  /\ settle mute _ (Response_json ok_200) = Fulfilled gato_body
  /\ textToSpeak (VArray [encode gato]) = Normal "gato con 93.21% de probabilidad"
  /\ alerts (events (run mute (sendImageToServer seen snapshot) seen)) = []
  /\ logged (events (run mute (sendImageToServer seen snapshot) seen))
     = [("Error al reproducir audio:", OtherError "speech engine unavailable")]
  /\ utterances (events (run mute (sendImageToServer seen snapshot) seen))
     = [("gato con 93.21% de probabilidad", speech_options)]
  /\ predictions (final (run mute (sendImageToServer seen snapshot) seen)) = VArray [encode gato]
  /\ isLoading (final (run mute (sendImageToServer seen snapshot) seen)) = false
  /\ completion (run mute (sendImageToServer seen snapshot) seen) = Normal tt.
Proof.
  assert (Ht : textToSpeak (VArray [encode gato]) = Normal "gato con 93.21% de probabilidad")
    by (vm_compute; reflexivity).
  split; [reflexivity | split; [reflexivity | split; [exact Ht | ]]].
  exact (speech_failure_is_silent mute seen seen snapshot ok_200 gato_body
           (VArray [encode gato]) "gato con 93.21% de probabilidad"
           (OtherError "speech engine unavailable") eq_refl eq_refl eq_refl Ht eq_refl).
Defined.

Lemma missing_predictions_break_render_failing :
  settle failing _ (the_fetch seen snapshot) = Fulfilled error_500
  /\ Get (VObject [("detail", VString "Internal Server Error")]) "predictions" = Normal VUndefined
  /\ alerts (events (run failing (sendImageToServer seen snapshot) seen)) = [generic_alert]
  /\ predictions (final (run failing (sendImageToServer seen snapshot) seen)) = VUndefined
  /\ isLoading (final (run failing (sendImageToServer seen snapshot) seen)) = false
  /\ App (final (run failing (sendImageToServer seen snapshot) seen)) = Abrupt TypeError.
Proof.
  split; [reflexivity | split; [reflexivity | ]].
  exact (missing_predictions_break_render failing seen seen snapshot error_500
           (VObject [("detail", VString "Internal Server Error")]) eq_refl eq_refl eq_refl).
Defined.

Lemma null_prediction_breaks_answering_hole :
  In VNull [encode gato; VNull]
  /\ predictions (final (run answering_hole (sendImageToServer fresh snapshot) fresh))
     = VArray [encode gato; VNull]
  /\ utterances (events (run answering_hole (sendImageToServer fresh snapshot) fresh)) = []
  /\ alerts (events (run answering_hole (sendImageToServer fresh snapshot) fresh))
     = [generic_alert]
  /\ App (final (run answering_hole (sendImageToServer fresh snapshot) fresh))
     = Abrupt TypeError.
Proof.
  assert (H : In VNull [encode gato; VNull]) by (right; left; reflexivity).
  split; [exact H | ].
  exact (null_prediction_breaks_speech_and_render answering_hole fresh fresh snapshot ok_200
           (VObject [("predictions", VArray [encode gato; VNull])]) [encode gato; VNull]
           eq_refl eq_refl eq_refl H).
Defined.


Lemma captured_image_is_kept_unreachable :
  first_asset_uri gato_result = Normal snapshot
  /\ imageUri (final (run unreachable (takePhoto seen) seen)) = Some snapshot
  /\ Forall (fun m => began_upload (past m) = true -> imageUri (now m) = Some snapshot)
       (moments seen (run unreachable (takePhoto seen) seen))
  /\ began_upload (events (run unreachable (takePhoto seen) seen)) = true
  /\ serverIP (final (run unreachable (takePhoto seen) seen)) = serverIP seen.
Proof.
  split; [reflexivity | ].
  exact (captured_image_is_kept unreachable seen seen {| status := granted |} gato_result
           snapshot eq_refl eq_refl eq_refl eq_refl eq_refl).
Defined.

Lemma camera_errors_are_uncaught_camera_failing :
  settle camera_failing _ the_camera = Rejected (OtherError "camera unavailable")
  /\ completion (run camera_failing (takePhoto seen) seen)
     = Abrupt (OtherError "camera unavailable")
  /\ final (run camera_failing (takePhoto seen) seen) = seen
  /\ alerts (events (run camera_failing (takePhoto seen) seen)) = []
  /\ logged (events (run camera_failing (takePhoto seen) seen)) = []
  /\ requests (events (run camera_failing (takePhoto seen) seen)) = [].
Proof.
  split; [reflexivity | ].
  exact (camera_errors_are_uncaught camera_failing seen seen (OtherError "camera unavailable")
           (or_intror (ex_intro _ {| status := granted |}
                         (conj eq_refl (conj eq_refl eq_refl))))).
Defined.

Lemma capture_without_asset_throws_capturing_nothing :
  first_asset_uri {| canceled := false; assets := Some [] |} = Abrupt TypeError
  /\ completion (run capturing_nothing (takePhoto seen) seen) = Abrupt TypeError
  /\ final (run capturing_nothing (takePhoto seen) seen) = seen
  /\ alerts (events (run capturing_nothing (takePhoto seen) seen)) = []
  /\ requests (events (run capturing_nothing (takePhoto seen) seen)) = [].
Proof.
  split; [reflexivity | ].
  exact (capture_without_asset_throws capturing_nothing seen seen {| status := granted |}
           {| canceled := false; assets := Some [] |} TypeError
           eq_refl eq_refl eq_refl eq_refl eq_refl).
Defined.

Lemma typed_state_renders_busy :
  as_Predictions (predictions busy) = Some [gato]
  /\ exists tree,
       App busy = Normal tree
       /\ tree = screen busy
                   (if isLoading busy then loading_view
                    else View "predictionsCard"
                           [Text "predictionsTitle" [Literal "Resultados del Análisis"];
                            ScrollView "predictionsContainer" (spec_entries 0 [gato])])
       /\ indicators tree = (if isLoading busy then 1 else 0)
       /\ scrolled tree
          = (if isLoading busy then []
             else [("predictionsContainer", spec_entries 0 [gato])])
       /\ leaves_of_all (spec_entries 0 [gato]) = entries_texts [gato].
Proof.
  split; [reflexivity | ].
  exact (typed_state_renders busy [gato] eq_refl).
Defined.

Lemma styles_are_defined_busy :
  App busy = Normal (screen busy loading_view)
  /\ forallb style_defined (style_names (screen busy loading_view)) = true.
Proof.
  split; [reflexivity | ].
  exact (styles_are_defined busy (screen busy loading_view) eq_refl).
Defined.

Lemma last_response_wins_gato :
  Get gato_body "predictions" = Normal (VArray [encode gato])
  /\ Get (VObject [("predictions", VArray [])]) "predictions" = Normal (VArray [])
  /\ predictions
       (store
          (play (two_captures "file:///a.jpg" "file:///b.jpg"
                 ++ [Settle 1 (Reply (Fulfilled ok_200));
                     Settle 1 (Body (Fulfilled (VObject [("predictions", VArray [])])));
                     Settle 0 (Reply (Fulfilled ok_200));
                     Settle 0 (Body (Fulfilled gato_body))])
             (opening fresh)))
     = VArray [encode gato]
  /\ imageUri
       (store
          (play (two_captures "file:///a.jpg" "file:///b.jpg"
                 ++ [Settle 1 (Reply (Fulfilled ok_200));
                     Settle 1 (Body (Fulfilled (VObject [("predictions", VArray [])])));
                     Settle 0 (Reply (Fulfilled ok_200));
                     Settle 0 (Body (Fulfilled gato_body))])
             (opening fresh)))
     = Some "file:///b.jpg".
Proof.
  split; [reflexivity | split; [reflexivity | ]].
  exact (last_response_wins fresh "file:///a.jpg" "file:///b.jpg" ok_200 ok_200
           gato_body (VObject [("predictions", VArray [])]) (VArray [encode gato]) (VArray [])
           eq_refl eq_refl).
Defined.

Lemma button_always_offers_capture_busy :
  App busy = Normal (screen busy loading_view)
  /\ press_handlers (screen busy loading_view) = [takePhoto busy]
  /\ text_inputs (screen busy loading_view)
     = [("192.168.1.5", fun text => call (setServerIP text))].
Proof.
  split; [reflexivity | ].
  exact (button_always_offers_capture busy (screen busy loading_view) eq_refl).
Defined.
